(** * Lighthouse workflow script template: a shallow embedding

    This development embeds [Docs/guides/python-script-template.py] and
    states the properties of its contract: JSON on stdin, JSON on stdout,
    exit code 0 on success and 1 on error.

    - Python values decoded from JSON are the inductive [py_value]; Python
      ints are unbounded ([Z]) and floats are IEEE 754 values
      ([spec_float], with its zeros, infinities and NaN).
    - An exception is a record of its class name, the names of the classes
      it derives from, and its [str()]; an [except C] clause matches by
      [isinstance].
    - The standard library ([json.loads], [json.dumps], the interpreter's
      own messages) and the operating system ([os.path.exists], [open],
      [read], [write]) are interfaces: every theorem holds for all their
      implementations.  [json.loads] returns a value or raises; what it
      raises need not be a [JSONDecodeError].  [json.dumps] can raise as
      well, but not on an object of scalars.
    - A path that is an int or a bool is a file descriptor.  Descriptors 1
      and 2 are the standard output and the standard error of the process:
      a [with] block over one of them closes it, and what is printed to a
      closed standard output is lost.
    - Code that touches files runs in a state-and-exception monad over the
      world of the [OS] interface and the state of the two standard
      streams.
    - A run takes the text read from stdin and the world it starts in, with
      both standard streams open, and leaves what was delivered to stdout
      and to stderr, the exit code and the final world. *)

From Stdlib Require Import ZArith Ascii String DecimalString SpecFloat.
From stdpp Require Import base strings list gmap.

Set Warnings "-register-all".
Open Scope string_scope.
Open Scope Z_scope.

(** ** Python values *)

Inductive py_value : Type :=
  | PyNone
  | PyBool (b : bool)
  | PyInt (z : Z)
  | PyFloat (f : spec_float)
  | PyStr (s : string)
  | PyList (l : list py_value)
  | PyDict (d : list (string * py_value)).

(** A [dict] with string keys, in insertion order. *)
Abbreviation dict := (list (string * py_value)).

(** [type(v).__name__] *)
Definition type_name (v : py_value) : string :=
  match v with
  | PyNone => "NoneType"
  | PyBool _ => "bool"
  | PyInt _ => "int"
  | PyFloat _ => "float"
  | PyStr _ => "str"
  | PyList _ => "list"
  | PyDict _ => "dict"
  end.

(** The types of the JSON data model. *)
Inductive json_type := JNull | JBoolean | JNumber | JString | JArray | JObject.

Definition json_type_of (v : py_value) : json_type :=
  match v with
  | PyNone => JNull
  | PyBool _ => JBoolean
  | PyInt _ | PyFloat _ => JNumber
  | PyStr _ => JString
  | PyList _ => JArray
  | PyDict _ => JObject
  end.

Definition is_json_number (v : py_value) : bool :=
  match json_type_of v with JNumber => true | _ => false end.

(** [isinstance(v, (int, float))]: [bool] is a subclass of [int]. *)
Definition isinstance_int_float (v : py_value) : bool :=
  match v with
  | PyBool _ | PyInt _ | PyFloat _ => true
  | _ => false
  end.

(** [v < 0] for a value that passed [isinstance_int_float]; [True] and
    [False] compare as 1 and 0, a NaN compares false. *)
Definition lt_zero (v : py_value) : bool :=
  match v with
  | PyInt z => z <? 0
  | PyFloat f => SFltb f (S754_zero false)
  | _ => false
  end.

(** A number strictly below zero. *)
Definition negative (v : py_value) : Prop :=
  match v with
  | PyInt z => z < 0
  | PyFloat f => SFcompare f (S754_zero false) = Some Lt
  | _ => False
  end.

(** Truth value of an object, as tested by [if v:]. *)
Definition truthy (v : py_value) : bool :=
  match v with
  | PyNone => false
  | PyBool b => b
  | PyInt z => negb (z =? 0)
  | PyFloat (S754_zero _) => false
  | PyFloat _ => true
  | PyStr s => negb (String.eqb s "")
  | PyList l => match l with [] => false | _ => true end
  | PyDict d => match d with [] => false | _ => true end
  end.

(** ** Paths that are file descriptors *)

(** [open] and [os.path.exists] take an int as a file descriptor, and a
    bool is an int. *)
Definition descriptor_of (p : py_value) : option Z :=
  match p with
  | PyBool b => Some (if b then 1 else 0)
  | PyInt z => Some z
  | _ => None
  end.

(** The path is descriptor 1, the standard output. *)
Definition names_stdout (p : py_value) : bool :=
  match descriptor_of p with Some 1 => true | _ => false end.

(** The path is descriptor 2, the standard error. *)
Definition names_stderr (p : py_value) : bool :=
  match descriptor_of p with Some 2 => true | _ => false end.

Definition is_std (p : py_value) : bool := names_stdout p || names_stderr p.

(** Among the values decoded from JSON, [open] takes a str as a path and
    an int or a bool as a descriptor; on any other value it raises a
    TypeError. *)
Definition path_like (p : py_value) : bool :=
  match p with
  | PyStr _ | PyInt _ | PyBool _ => true
  | _ => false
  end.

(** ** The nesting of containers *)

(** The number of arrays and objects that are nested in a value, the value
    itself included: 0 for a scalar, 1 for an array or object of
    scalars. *)
Fixpoint nesting (v : py_value) : nat :=
  match v with
  | PyList l => S (list_max (map nesting l))
  | PyDict d => S (list_max (map (fun kv => nesting (snd kv)) d))
  | _ => O
  end.

(** ** Dictionaries *)

Fixpoint dict_lookup (k : string) (d : dict) : option py_value :=
  match d with
  | [] => None
  | (k', v) :: d' => if String.eqb k k' then Some v else dict_lookup k d'
  end.

(** [k in d] *)
Definition dict_has (k : string) (d : dict) : bool :=
  match dict_lookup k d with Some _ => true | None => false end.

(** [d.get(k, default)] *)
Definition dict_get (k : string) (default : py_value) (d : dict) : py_value :=
  match dict_lookup k d with Some v => v | None => default end.

(** [d[k] = v]: replaces the value of an existing key in place, appends a
    new key. *)
Fixpoint dict_set (k : string) (v : py_value) (d : dict) : dict :=
  match d with
  | [] => [(k, v)]
  | (k', v') :: d' =>
      if String.eqb k k' then (k', v) :: d' else (k', v') :: dict_set k v d'
  end.

(** ** Strings *)

(** [s.split(sep)] for a one-character separator. *)
Fixpoint split_on (sep : ascii) (s : string) : list string :=
  match s with
  | EmptyString => [EmptyString]
  | String c s' =>
      if Ascii.eqb c sep then EmptyString :: split_on sep s'
      else match split_on sep s' with
           | [] => [String c EmptyString]
           | w :: ws => String c w :: ws
           end
  end.

Definition newline : ascii := Ascii.ascii_of_nat 10.

(** [str(z)] for an int. *)
Definition str_of_int (z : Z) : string := NilZero.string_of_int (Z.to_int z).

(** [needle in s] for strings. *)
Definition is_substring (needle s : string) : bool :=
  match String.index 0 needle s with Some _ => true | None => false end.

(** ** Exceptions *)

Record exn : Type := mk_exn {
  exn_type : string;        (* type(e).__name__ *)
  exn_bases : list string;  (* the classes it derives from, below Exception *)
  exn_str : string          (* str(e) *)
}.

(** [isinstance(e, cls)]; every exception of the model derives from
    [Exception]. *)
Definition isinstance (e : exn) (cls : string) : bool :=
  String.eqb cls "Exception" || String.eqb cls (exn_type e)
  || existsb (String.eqb cls) (exn_bases e).

Definition ValueError (msg : string) : exn := mk_exn "ValueError" [] msg.
Definition TypeError (msg : string) : exn := mk_exn "TypeError" [] msg.
Definition AttributeError (msg : string) : exn := mk_exn "AttributeError" [] msg.
Definition KeyError (msg : string) : exn := mk_exn "KeyError" ["LookupError"] msg.
Definition OSError (msg : string) : exn := mk_exn "OSError" [] msg.
Definition FileNotFoundError (msg : string) : exn :=
  mk_exn "FileNotFoundError" ["OSError"] msg.
Definition UnicodeDecodeError (msg : string) : exn :=
  mk_exn "UnicodeDecodeError" ["UnicodeError"; "ValueError"] msg.
Definition JSONDecodeError (msg : string) : exn :=
  mk_exn "JSONDecodeError" ["ValueError"] msg.
Definition RecursionError (msg : string) : exn :=
  mk_exn "RecursionError" ["RuntimeError"] msg.
Definition OverflowError (msg : string) : exn :=
  mk_exn "OverflowError" ["ArithmeticError"] msg.

(** What the operating system answers on a descriptor that is closed. *)
Definition bad_descriptor : exn := OSError "[Errno 9] Bad file descriptor".

Inductive result (A : Type) : Type :=
  | Ok (a : A)
  | Raise (e : exn).
Arguments Ok {A} a.
Arguments Raise {A} e.

(** ** The interfaces of the standard library and of the operating system *)

Class PyLib := {
  (* json.loads(s): the decoded value, or the exception it raises: a
     JSONDecodeError on a text that is no JSON, a RecursionError on
     arrays or objects nested too deep, a ValueError on an integer of
     too many digits *)
  json_loads : string -> result py_value;
  (* json.dumps(v, indent=2), where it returns *)
  json_dumps : py_value -> string;
  (* the exception that json.dumps(v, indent=2) raises, if any: a
     RecursionError on a value that is nested too deep *)
  json_dumps_error : py_value -> option exn;
  (* str(x) for a float *)
  str_of_float : spec_float -> string;
  (* str(e) of the TypeError raised by [k in v] on a non-container *)
  msg_not_container : py_value -> string;
  (* str(e) of the TypeError raised by [v[k]] for a string key on a
     value that is not a dict *)
  msg_bad_subscript : py_value -> string;
  (* json.dumps encodes an object of scalars and of arrays and objects of
     scalars *)
  json_dumps_shallow : forall v, (nesting v <= 2)%nat -> json_dumps_error v = None
}.

Class OS := {
  world : Type;
  (* os.path.exists(p); raises TypeError on a value that is no path *)
  os_path_exists : py_value -> world -> result bool;
  (* with open(p, 'r') as f: f.read() *)
  read_text : py_value -> world -> result string;
  (* open(p, 'w'): creates or truncates the file; a failed open leaves
     the world as it is *)
  open_w : py_value -> world -> result world;
  (* f.write(s), then the close at the end of the with block; a failure
     may leave part of the data behind *)
  write_close : py_value -> string -> world -> option exn * world;
  (* the standard output is a terminal, so that sys.stdout is
     line-buffered and print writes at once; otherwise print only fills
     the buffer that is flushed when the interpreter shuts down *)
  stdout_line_buffered : bool;
  (* open succeeds on a str, an int or a bool only *)
  open_w_path : forall p w w', open_w p w = Ok w' -> path_like p = true
}.

(** ** The standard streams of the process *)

(** What reaches the standard error: a text written to descriptor 2, the
    traceback of an exception that nothing caught (with the exceptions
    that were being handled when it was raised, the oldest first), or the
    interpreter's note that flushing the standard output failed at
    shutdown. *)
Inductive report : Type :=
  | Written (text : string)
  | Traceback (chain : list exn)
  | FlushFailure.

Record streams : Type := mk_streams {
  stdout_closed : bool;          (* the script has closed descriptor 1 *)
  stderr_closed : bool;          (* the script has closed descriptor 2 *)
  stdout_sent : list string;     (* the texts delivered to stdout *)
  stderr_sent : list report      (* what was delivered to stderr *)
}.

(** A process starts with both streams open and nothing delivered. *)
Definition initial_streams : streams := mk_streams false false [] [].

(** The end of a [with] block over the path [p] closes its file; for
    descriptor 1 or 2 that is the standard stream itself. *)
Definition close_descriptor (p : py_value) (io : streams) : streams :=
  if names_stdout p then
    mk_streams true (stderr_closed io) (stdout_sent io) (stderr_sent io)
  else if names_stderr p then
    mk_streams (stdout_closed io) true (stdout_sent io) (stderr_sent io)
  else io.

(** The path is a standard descriptor that the script has closed. *)
Definition descriptor_closed (p : py_value) (io : streams) : bool :=
  (names_stdout p && stdout_closed io) || (names_stderr p && stderr_closed io).

(** A text written through descriptor 1 or 2 reaches that stream. *)
Definition send (p : py_value) (text : string) (io : streams) : streams :=
  if names_stdout p then
    mk_streams (stdout_closed io) (stderr_closed io)
      (stdout_sent io ++ [text]) (stderr_sent io)
  else if names_stderr p then
    mk_streams (stdout_closed io) (stderr_closed io)
      (stdout_sent io) (stderr_sent io ++ [Written text])
  else io.

(** The interpreter reports on stderr, unless the script has closed it. *)
Definition report_to_stderr (r : report) (io : streams) : streams :=
  if stderr_closed io then io
  else mk_streams (stdout_closed io) (stderr_closed io)
         (stdout_sent io) (stderr_sent io ++ [r]).

(** ** The monads: exceptions, and exceptions over the state *)

#[global] Instance result_ret : MRet result := fun _ a => Ok a.
#[global] Instance result_bind : MBind result := fun _ _ f m =>
  match m with
  | Ok a => f a
  | Raise e => Raise e
  end.

Section Script.
Context {lib : PyLib} {os : OS}.

(** The state of a run: the world of the operating system and the
    standard streams. *)
Definition state : Type := world * streams.

(** A computation reads and updates the state, and returns or raises; the
    effects made before an exception stay. *)
Definition M (A : Type) : Type := state -> result A * state.

#[global] Instance M_ret : MRet M := fun _ a s => (Ok a, s).
#[global] Instance M_bind : MBind M := fun _ _ f m s =>
  match m s with
  | (Ok a, s') => f a s'
  | (Raise e, s') => (Raise e, s')
  end.

Definition raise {A : Type} (e : exn) : M A := fun s => (Raise e, s).

(** A computation that does not touch the state. *)
Definition lift {A : Type} (r : result A) : M A := fun s => (r, s).

(** A computation that only observes the world. *)
Definition observe {A : Type} (f : world -> result A) : M A :=
  fun s => (f (fst s), s).

(** [with open(p, 'r') as f: data = f.read()], on a path that exists: the
    operating system gives the text or the exception, and the end of the
    block closes the file, also when reading failed. *)
Definition py_read (p : py_value) : M string := fun s =>
  (read_text p (fst s), (fst s, close_descriptor p (snd s))).

(** [open(p, 'w')]: descriptor 1 or 2 is wrapped as it is, unless the
    script has closed it before; any other path goes to the operating
    system. *)
Definition py_open_w (p : py_value) : M unit := fun s =>
  if is_std p then
    if descriptor_closed p (snd s) then (Raise bad_descriptor, s)
    else (Ok tt, s)
  else
    match open_w p (fst s) with
    | Ok w' => (Ok tt, (w', snd s))
    | Raise e => (Raise e, s)
    end.

(** [f.write(text)] and the end of the [with] block: through descriptor 1
    or 2 the text reaches the stream, which is closed then; any other
    file is written by the operating system. *)
Definition py_write_close (p : py_value) (text : string) : M unit := fun s =>
  if is_std p then
    (Ok tt, (fst s, close_descriptor p (send p text (snd s))))
  else
    match write_close p text (fst s) with
    | (None, w') => (Ok tt, (w', snd s))
    | (Some e, w') => (Raise e, (w', snd s))
    end.

(** ** Operations on the decoded input, which may be any JSON value *)

Definition is_str (k : string) (v : py_value) : bool :=
  match v with PyStr s => String.eqb s k | _ => false end.

(** [k in v] *)
Definition py_contains (k : string) (v : py_value) : result bool :=
  match v with
  | PyDict d => Ok (dict_has k d)
  | PyList l => Ok (existsb (is_str k) l)
  | PyStr s => Ok (is_substring k s)
  | _ => Raise (TypeError (msg_not_container v))
  end.

(** [v[k]] for a string key *)
Definition py_getitem (k : string) (v : py_value) : result py_value :=
  match v with
  | PyDict d =>
      match dict_lookup k d with
      | Some x => Ok x
      | None => Raise (KeyError ("'" ++ k ++ "'"))
      end
  | _ => Raise (TypeError (msg_bad_subscript v))
  end.

(** [v.get(k, default)] *)
Definition py_get (k : string) (default : py_value) (v : py_value)
  : result py_value :=
  match v with
  | PyDict d => Ok (dict_get k default d)
  | _ => Raise (AttributeError
                  ("'" ++ type_name v ++ "' object has no attribute 'get'"))
  end.

(** [f'{v}'] for the values that reach the second check of
    [validate_inputs]. *)
Definition format_number (v : py_value) : string :=
  match v with
  | PyInt z => str_of_int z
  | PyFloat f => str_of_float f
  | PyBool true => "True"
  | PyBool false => "False"
  | _ => ""
  end.

(** ** The script *)

Definition validate_inputs (inputs : py_value) : result unit :=
  has ← py_contains "threshold" inputs;
  if has : bool then
    threshold ← py_getitem "threshold" inputs;
    if negb (isinstance_int_float threshold) then
      Raise (ValueError ("threshold must be a number, got " ++ type_name threshold))
    else if lt_zero threshold then
      Raise (ValueError ("threshold must be positive, got " ++ format_number threshold))
    else Ok tt
  else Ok tt.

Definition main (inputs : py_value) : M dict :=
  input_file ← lift (py_get "input_file" (PyStr "data/default.txt") inputs);
  output_file ← lift (py_get "output_file" (PyStr "output/result.json") inputs);
  threshold ← lift (py_get "threshold" (PyInt 10) inputs);
  has ← lift (py_contains "required_param" inputs);
  required_value ←
    (if has : bool then lift (py_getitem "required_param" inputs)
     else raise (ValueError "Missing required parameter: required_param"));
  found ← observe (os_path_exists input_file);
  processed_count ←
    (if found : bool then
       data ← py_read input_file;
       mret (Z.of_nat (length (split_on newline data)))
     else mret 0);
  (if truthy output_file then
     py_open_w output_file;;
     py_write_close output_file
       (json_dumps (PyDict [("processed", PyBool true);
                            ("count", PyInt processed_count)]))
   else mret tt);;
  mret [("success", PyBool true);
        ("processed_count", PyInt processed_count);
        ("output_file", output_file);
        ("threshold_used", threshold)].

(** The dictionary that the main logic returns. *)
Definition main_output (d : dict) (processed_count : Z) : dict :=
  [("success", PyBool true);
   ("processed_count", PyInt processed_count);
   ("output_file", dict_get "output_file" (PyStr "output/result.json") d);
   ("threshold_used", dict_get "threshold" (PyInt 10) d)].

(** The count that the main logic takes from the input file. *)
Definition count_of (found : result bool) (data : result string) : option Z :=
  match found with
  | Ok true =>
      match data with
      | Ok s => Some (Z.of_nat (length (split_on newline s)))
      | Raise _ => None
      end
  | Ok false => Some 0
  | Raise _ => None
  end.

(** What a run leaves behind. *)
Record outcome : Type := mk_outcome {
  stdout : list string;   (* the texts delivered to the standard output *)
  stderr : list report;   (* what was delivered to the standard error *)
  exit_code : Z;
  final_world : world
}.

Definition error_output (error error_type : string) : py_value :=
  PyDict [("success", PyBool false);
          ("error", PyStr error);
          ("error_type", PyStr error_type)].

(** The body of the second [try] up to the print: validation, the main
    logic, and the success flag. *)
Definition processing (main : py_value -> M dict) (inputs : py_value) : M dict :=
  lift (validate_inputs inputs);;
  output ← main inputs;
  mret (if dict_has "success" output then output
        else dict_set "success" (PyBool true) output).

(** The error object of the [except] clauses of the second [try], in
    their order. *)
Definition handler (e : exn) : py_value :=
  if isinstance e "FileNotFoundError" then
    error_output ("File not found: " ++ exn_str e) "FileNotFoundError"
  else if isinstance e "ValueError" then
    error_output ("Invalid value: " ++ exn_str e) "ValueError"
  else error_output (exn_str e) (exn_type e).


(** [json.loads(input_data) if input_data else {}] *)
Definition read_inputs (input_data : string) : result py_value :=
  if negb (String.eqb input_data "") then json_loads input_data
  else Ok (PyDict []).

(** [print(text)]: the text is delivered to an open standard output.
    Once the script has closed descriptor 1, a line-buffered print fails
    with the error of the operating system, and any other print leaves
    the text in a buffer that can no longer be flushed. *)
Definition py_print (text : string) (io : streams) : option exn * streams :=
  if stdout_closed io then
    if stdout_line_buffered then (Some bad_descriptor, io) else (None, io)
  else
    (None, mk_streams (stdout_closed io) (stderr_closed io)
             (stdout_sent io ++ [text]) (stderr_sent io)).

(** The end of the process: [sys.exit(code)], or an exception that nothing
    caught, whose traceback goes to stderr with status 1.  When the script
    has closed descriptor 1, flushing what was printed fails at shutdown:
    the interpreter notes it on stderr and the exit code is 120. *)
Definition interpreter_exit (code : Z) (uncaught : option (list exn))
  (w : world) (io : streams) : outcome :=
  let io1 :=
    match uncaught with
    | Some chain => report_to_stderr (Traceback chain) io
    | None => io
    end in
  let code1 := match uncaught with Some _ => 1 | None => code end in
  if stdout_closed io1 then
    let io2 := report_to_stderr FlushFailure io1 in
    mk_outcome (stdout_sent io2) (stderr_sent io2) 120 w
  else mk_outcome (stdout_sent io1) (stderr_sent io1) code1 w.

(** An [except] clause of the second [try] on the exception [e]: it
    prints the error object and exits with 1; an exception of that print
    is raised while [e] is handled, and nothing catches it. *)
Definition report_error (e : exn) (w : world) (io : streams) : outcome :=
  match py_print (json_dumps (handler e)) io with
  | (None, io1) => interpreter_exit 1 None w io1
  | (Some e2, io1) => interpreter_exit 1 (Some [e; e2]) w io1
  end.

(** The [__main__] block on the text that [sys.stdin.read()] returned, for
    any main logic put into the template that returns a dictionary of JSON
    values.  The first [try] catches a JSONDecodeError only.  In the second
    [try] the encoding of the result and its print can themselves raise,
    which the clauses catch like any exception of the main logic; the
    SystemExit of [sys.exit(0)] is no [Exception], so that no clause catches
    it.  The error objects and the text for the output file are objects of
    scalars, which the encoder always encodes. *)
Definition run_with (main : py_value -> M dict) (stdin : string) (w : world)
  : outcome :=
  match read_inputs stdin with
  | Raise e =>
      if isinstance e "JSONDecodeError" then
        match py_print
                (json_dumps (error_output ("Invalid JSON input: " ++ exn_str e)
                               "JSONDecodeError"))
                initial_streams with
        | (None, io1) => interpreter_exit 1 None w io1
        | (Some e2, io1) => interpreter_exit 1 (Some [e; e2]) w io1
        end
      else interpreter_exit 1 (Some [e]) w initial_streams
  | Ok inputs =>
      match processing main inputs (w, initial_streams) with
      | (Ok output, (w', io)) =>
          match json_dumps_error (PyDict output) with
          | Some e1 => report_error e1 w' io
          | None =>
              match py_print (json_dumps (PyDict output)) io with
              | (None, io1) => interpreter_exit 0 None w' io1
              | (Some e1, io1) => report_error e1 w' io1
              end
          end
      | (Raise e, (w', io)) => report_error e w' io
      end
  end.

(** The script as it is. *)
Definition run (stdin : string) (w : world) : outcome := run_with main stdin w.

End Script.
(** ** A reference library and a reference file system

    One implementation of each interface, on which the script can be run:
    a decoder given by a table of documents and their decoded values, an
    encoder with the layout of [indent=2], and a project directory without
    subdirectories. *)

Module Reference.

Definition dquote : ascii := Ascii.ascii_of_nat 34.

Definition escape_char (c : ascii) : string :=
  if Ascii.eqb c dquote then String "\"%char (String dquote EmptyString)
  else if Ascii.eqb c "\"%char then "\\"
  else if Ascii.eqb c newline then "\n"
  else String c EmptyString.

Fixpoint escape (s : string) : string :=
  match s with
  | EmptyString => EmptyString
  | String c s' => escape_char c ++ escape s'
  end.

Definition quote (s : string) : string :=
  String dquote (escape s) ++ String dquote EmptyString.

Fixpoint spaces (n : nat) : string :=
  match n with
  | O => EmptyString
  | S n' => String " "%char (spaces n')
  end.

(** Items of a container, one per line. *)
Fixpoint join_items (pad : string) (items : list string) : string :=
  match items with
  | [] => EmptyString
  | [x] => pad ++ x
  | x :: rest => pad ++ x ++ "," ++ String newline (join_items pad rest)
  end.

Fixpoint zeros (n : nat) : string :=
  match n with
  | O => EmptyString
  | S n' => String "0"%char (zeros n')
  end.

(** Zeros in front, up to the length [len]. *)
Definition pad_zeros (len : nat) (s : string) : string :=
  zeros (len - String.length s) ++ s.

(** Drops the zeros at the end, all but the first character. *)
Fixpoint strip_zeros (fuel : nat) (s : string) : string :=
  match fuel with
  | O => s
  | S fuel' =>
      let n := String.length s in
      if (1 <? n)%nat && String.eqb (String.substring (n - 1) 1 s) "0"
      then strip_zeros fuel' (String.substring 0 (n - 1) s)
      else s
  end.

(** The exact decimal expansion of [m * 2^e]. *)
Definition decimal_of (m : positive) (e : Z) : string :=
  if 0 <=? e then str_of_int (Z.pos m * 2 ^ e) ++ ".0"
  else
    let k := Z.to_nat (- e) in
    let digits := pad_zeros (S k) (str_of_int (Z.pos m * 5 ^ (- e))) in
    let n := String.length digits in
    String.substring 0 (n - k) digits ++ "." ++
    strip_zeros k (String.substring (n - k) k digits).

Definition sign_text (s : bool) : string := if s then "-" else "".

(** [str(x)]; exact on the floats with a short binary expansion. *)
Definition float_str (f : spec_float) : string :=
  match f with
  | S754_zero s => sign_text s ++ "0.0"
  | S754_infinity s => sign_text s ++ "inf"
  | S754_nan => "nan"
  | S754_finite s m e => sign_text s ++ decimal_of m e
  end.

Definition float_json (f : spec_float) : string :=
  match f with
  | S754_infinity s => sign_text s ++ "Infinity"
  | S754_nan => "NaN"
  | _ => float_str f
  end.

Fixpoint dumps (depth : nat) (v : py_value) : string :=
  match v with
  | PyNone => "null"
  | PyBool true => "true"
  | PyBool false => "false"
  | PyInt z => str_of_int z
  | PyFloat f => float_json f
  | PyStr s => quote s
  | PyList [] => "[]"
  | PyList l =>
      "[" ++ String newline
        (join_items (spaces (2 * S depth)) (map (dumps (S depth)) l))
      ++ String newline (spaces (2 * depth)) ++ "]"
  | PyDict [] => "{}"
  | PyDict d =>
      "{" ++ String newline
        (join_items (spaces (2 * S depth))
           (map (fun kv => quote (fst kv) ++ ": " ++ dumps (S depth) (snd kv)) d))
      ++ String newline (spaces (2 * depth)) ++ "}"
  end.

Fixpoint table_lookup (s : string) (table : list (string * py_value))
  : option py_value :=
  match table with
  | [] => None
  | (doc, v) :: rest => if String.eqb s doc then Some v else table_lookup s rest
  end.

(** The documents of the examples below, with what [json.loads] returns on
    them. *)
Definition documents : list (string * py_value) :=
  [ ("{}", PyDict []);
    ("{" ++ quote "required_param" ++ ": 1, " ++ quote "output_file" ++ ": "
         ++ quote "result.json" ++ "}",
     PyDict [("required_param", PyInt 1); ("output_file", PyStr "result.json")]);
    ("{" ++ quote "required_param" ++ ": 1, " ++ quote "input_file" ++ ": "
         ++ quote "missing.txt" ++ ", " ++ quote "output_file" ++ ": "
         ++ quote "result.json" ++ "}",
     PyDict [("required_param", PyInt 1); ("input_file", PyStr "missing.txt");
             ("output_file", PyStr "result.json")]);
    ("{" ++ quote "threshold" ++ ": -1}", PyDict [("threshold", PyInt (-1))]);
    ("{" ++ quote "threshold" ++ ": true, " ++ quote "required_param" ++ ": 1, "
         ++ quote "output_file" ++ ": " ++ quote "result.json" ++ "}",
     PyDict [("threshold", PyBool true); ("required_param", PyInt 1);
             ("output_file", PyStr "result.json")]);
    ("{" ++ quote "required_param" ++ ": 1, " ++ quote "input_file" ++ ": "
         ++ quote "data.bin" ++ ", " ++ quote "output_file" ++ ": "
         ++ quote "result.json" ++ "}",
     PyDict [("required_param", PyInt 1); ("input_file", PyStr "data.bin");
             ("output_file", PyStr "result.json")]);
    ("{" ++ quote "required_param" ++ ": 1}", PyDict [("required_param", PyInt 1)]) ].

(** The opening brackets at the start of a text. *)
Fixpoint leading_brackets (s : string) : nat :=
  match s with
  | String c s' => if Ascii.eqb c "["%char then S (leading_brackets s') else O
  | EmptyString => O
  end.

Fixpoint brackets (n : nat) : string :=
  match n with
  | O => EmptyString
  | S n' => String "["%char (brackets n')
  end.


Definition too_deep : exn :=
  RecursionError
    "maximum recursion depth exceeded while decoding a JSON array from a unicode string".

(** The decoder finds no value at the position [n] of a one-line text. *)
Definition no_value_at (n : nat) : exn :=
  JSONDecodeError
    ("Expecting value: line 1 column " ++ str_of_int (Z.of_nat (S n))
       ++ " (char " ++ str_of_int (Z.of_nat n) ++ ")").

Definition no_json : exn := no_value_at 0.

(** The decoder over a table of documents, for the texts of the examples:
    a text of the table decodes to its value; a word that starts no JSON
    value, or a row of opening brackets, has no value where the word starts
    or the row ends; and with the recursion limit of 1000, a text that
    opens 996 arrays or more raises a RecursionError. *)
Definition decode (table : list (string * py_value)) (s : string)
  : result py_value :=
  match table_lookup s table with
  | Some v => Ok v
  | None =>
      if (996 <=? leading_brackets s)%nat then Raise too_deep
      else Raise (no_value_at (leading_brackets s))
  end.

Definition too_deep_to_encode : exn :=
  RecursionError "maximum recursion depth exceeded while calling a Python object".

(** With the recursion limit of 1000, the encoder raises a RecursionError
    on a value that nests 997 containers or more. *)
Definition dumps_error (v : py_value) : option exn :=
  if (997 <=? nesting v)%nat then Some too_deep_to_encode else None.

Definition dumps_error_shallow (v : py_value) :
  (nesting v <= 2)%nat -> dumps_error v = None.
Proof.
  intros H. unfold dumps_error.
  destruct (Nat.leb_spec 997 (nesting v)) as [Hdeep|_]; [lia | reflexivity].
Qed.

Definition lib : PyLib := {|
  json_loads := decode documents;
  json_dumps := dumps 0;
  json_dumps_error := dumps_error;
  str_of_float := float_str;
  msg_not_container v := "argument of type '" ++ type_name v ++ "' is not iterable";
  msg_bad_subscript v :=
    match v with
    | PyStr _ => "string indices must be integers, not 'str'"
    | PyList _ => "list indices must be integers or slices, not str"
    | _ => "'" ++ type_name v ++ "' object is not subscriptable"
    end;
  json_dumps_shallow := dumps_error_shallow
|}.

(** A file holds text, or bytes that the locale's encoding cannot decode. *)
Inductive file : Type :=
  | Text (s : string)
  | Undecodable.

Definition has_slash (p : string) : bool := is_substring "/" p.

Definition no_such_file (p : string) : exn :=
  FileNotFoundError ("[Errno 2] No such file or directory: '" ++ p ++ "'").

(** Descriptors 0, 1 and 2 are open when the process starts. *)
Definition descriptor_open (n : Z) : bool := (0 <=? n) && (n <=? 2).

Definition not_a_path {A : Type} (prefix : string) (v : py_value) : result A :=
  Raise (TypeError (prefix ++ type_name v)).

(** [os.path.exists] on a descriptor: one that is no C int is an
    overflow, any other is looked up. *)
Definition descriptor_exists (n : Z) : result bool :=
  if n <? - 2 ^ 31 then Raise (OverflowError "fd is less than minimum")
  else if 2 ^ 31 <=? n then Raise (OverflowError "fd is greater than maximum")
  else Ok (descriptor_open n).

(** [open] on a descriptor: one that is no C int is taken for a path of
    the wrong type, a negative one is refused, and one that is not open is
    a bad descriptor. *)
Definition descriptor_usable (p : py_value) (n : Z) : option exn :=
  if (n <? - 2 ^ 31) || (2 ^ 31 <=? n) then
    Some (TypeError ("expected str, bytes or os.PathLike object, not " ++ type_name p))
  else if n <? 0 then Some (ValueError "negative file descriptor")
  else if descriptor_open n then None
  else Some bad_descriptor.

(** A directory of files without subdirectories, where a path is the name
    of a file: a name with a slash or the empty name leads nowhere.  The
    standard streams are pipes: stdin has been read to its end, and
    descriptors 1 and 2 cannot be read. *)
Definition flat_exists (p : py_value) (w : gmap string file) : result bool :=
  match p with
  | PyStr name => Ok (bool_decide (is_Some (w !! name)))
  | _ =>
      match descriptor_of p with
      | Some n => descriptor_exists n
      | None =>
          not_a_path "stat: path should be string, bytes, os.PathLike or integer, not " p
      end
  end.

Definition flat_read (p : py_value) (w : gmap string file) : result string :=
  match p with
  | PyStr name =>
      match w !! name with
      | Some (Text s) => Ok s
      | Some Undecodable =>
          Raise (UnicodeDecodeError
                   "'utf-8' codec can't decode byte 0xff in position 0: invalid start byte")
      | None => Raise (no_such_file name)
      end
  | _ =>
      match descriptor_of p with
      | Some n =>
          match descriptor_usable p n with
          | Some e => Raise e
          | None => if n =? 0 then Ok "" else Raise bad_descriptor
          end
      | None => not_a_path "expected str, bytes or os.PathLike object, not " p
      end
  end.

Definition flat_open_w (p : py_value) (w : gmap string file)
  : result (gmap string file) :=
  match p with
  | PyStr name =>
      if has_slash name || String.eqb name "" then Raise (no_such_file name)
      else Ok (<[name := Text ""]> w)
  | _ =>
      match descriptor_of p with
      | Some n =>
          match descriptor_usable p n with
          | Some e => Raise e
          | None => Ok w
          end
      | None => not_a_path "expected str, bytes or os.PathLike object, not " p
      end
  end.

Definition flat_write (p : py_value) (s : string) (w : gmap string file)
  : option exn * gmap string file :=
  match p with
  | PyStr name => (None, <[name := Text s]> w)
  | _ =>
      match descriptor_of p with
      | Some 0 => (Some bad_descriptor, w)
      | _ => (None, w)
      end
  end.

Definition flat_open_w_path (p : py_value) (w w' : gmap string file) :
  flat_open_w p w = Ok w' -> path_like p = true.
Proof. destruct p; (reflexivity || discriminate). Qed.

Definition flat : OS := {|
  world := gmap string file;
  os_path_exists := flat_exists;
  read_text := flat_read;
  open_w := flat_open_w;
  write_close := flat_write;
  stdout_line_buffered := false;
  open_w_path := flat_open_w_path
|}.


(** The same directory with a terminal as the standard output. *)
Definition terminal : OS := {|
  world := gmap string file;
  os_path_exists := flat_exists;
  read_text := flat_read;
  open_w := flat_open_w;
  write_close := flat_write;
  stdout_line_buffered := true;
  open_w_path := flat_open_w_path
|}.

(** The documents of the table, by position. *)
Definition document (i : nat) : string :=
  match documents !! i with Some (doc, _) => doc | None => "" end.

Definition decoded (i : nat) : py_value :=
  match documents !! i with Some (_, v) => v | None => PyNone end.

(** Worlds and input objects of the examples. *)
Definition empty_dir : gmap string file := ∅.

Definition binary_dir : gmap string file := {[ "data.bin" := Undecodable ]}.

Definition notes_dir : gmap string file :=
  {[ "notes.txt" := Text ("first" ++ String newline "second") ]}.

Definition notes_inputs : dict :=
  [("required_param", PyInt 1); ("input_file", PyStr "notes.txt");
   ("output_file", PyNone)].

Definition default_inputs : dict := [("required_param", PyInt 1)].

(** The output file as the script leaves it after a run that counted
    [n] lines. *)
Definition written (n : Z) : file :=
  Text (dumps 0 (PyDict [("processed", PyBool true); ("count", PyInt n)])).

Definition undecodable : exn :=
  UnicodeDecodeError
    "'utf-8' codec can't decode byte 0xff in position 0: invalid start byte".

Definition disk_full : exn := OSError "[Errno 28] No space left on device".


(** Arrays in arrays, [n] deep. *)
Fixpoint deep_list (n : nat) : py_value :=
  match n with
  | O => PyInt 0
  | S n' => PyList [deep_list n']
  end.


End Reference.

(** ** The requirement registry of the traceability builder

    The traceability builder is described by the specification only; its
    status rule is modelled here from that description. *)

Module Traceability.

(** Modelled from the spec: the coverage level of a covering artifact,
    [full] or partial; the builder's data model is not among the sources. *)
Inductive coverage_level : Type := full | partial_level.

(** Modelled from the spec: the derived status of a requirement; the
    builder's data model is not among the sources. *)
Inductive status : Type := uncovered | partial | covered.

(** Modelled from the spec: a link to a covering Feature or Wave, with the
    artifact's identifier, its file path and its coverage level; the
    builder's data model is not among the sources. *)
Record link : Type := mk_link {
  link_id : string;
  link_path : string;
  link_level : coverage_level
}.

(** Modelled from the spec: a requirement of the registry, with its two
    growable lists of links and its status; the builder's data model is not
    among the sources. *)
Record requirement : Type := mk_requirement {
  req_id : string;
  req_description : string;
  req_priority : string;
  req_type : string;
  req_criteria : list string;
  req_features : list link;
  req_waves : list link;
  req_status : status
}.

(** Modelled from the spec: the status rule of a Feature link, whose code
    is not among the sources.  The status becomes [partial] when a
    covering Feature is linked, becomes [covered] once a linked Feature is
    of full coverage, and [covered] is not revoked by a later partial
    link. *)
Definition feature_status (lvl : coverage_level) (st : status) : status :=
  match lvl with
  | full => covered
  | partial_level =>
      match st with
      | covered => covered
      | _ => partial
      end
  end.

(** Modelled from the spec: the status rule of a Wave link, whose code is
    not among the sources.  The data model lets a Wave link move
    [uncovered] to [partial], the builder's description says that a Wave
    link never changes the status; [wave_marks_partial] selects the
    reading. *)
Definition wave_status (wave_marks_partial : bool) (st : status) : status :=
  if wave_marks_partial then
    match st with
    | uncovered => partial
    | _ => st
    end
  else st.

(** Modelled from the spec: appending a Feature link to a requirement and
    updating its status; the builder's code is not among the sources. *)
Definition link_feature (l : link) (r : requirement) : requirement :=
  mk_requirement (req_id r) (req_description r) (req_priority r) (req_type r)
    (req_criteria r) (req_features r ++ [l]) (req_waves r)
    (feature_status (link_level l) (req_status r)).

(** Modelled from the spec: appending a Wave link to a requirement; the
    builder's code is not among the sources. *)
Definition link_wave (wave_marks_partial : bool) (l : link) (r : requirement)
  : requirement :=
  mk_requirement (req_id r) (req_description r) (req_priority r) (req_type r)
    (req_criteria r) (req_features r) (req_waves r ++ [l])
    (wave_status wave_marks_partial (req_status r)).

(** A Feature or Wave document after extraction: its identifier and path,
    the distinct requirement identifiers in its text, and its coverage
    level. *)
Record artifact : Type := mk_artifact {
  art_id : string;
  art_path : string;
  art_tokens : list string;
  art_level : coverage_level
}.

Inductive artifact_kind : Type := feature | wave.

(** One step of a build pass: a requirement identifier found in a
    document of the given kind. *)
Record event : Type := mk_event {
  ev_kind : artifact_kind;
  ev_token : string;
  ev_link : link
}.

Definition events_of (k : artifact_kind) (a : artifact) : list event :=
  map (fun tok => mk_event k tok (mk_link (art_id a) (art_path a) (art_level a)))
      (art_tokens a).

(** Modelled from the spec: the events of a pass, the Feature documents
    first and the Wave documents after them. *)
Definition pass_events (features waves : list artifact) : list event :=
  flat_map (events_of feature) features ++ flat_map (events_of wave) waves.

Definition apply_link (wave_marks_partial : bool) (ev : event) (r : requirement)
  : requirement :=
  match ev_kind ev with
  | feature => link_feature (ev_link ev) r
  | wave => link_wave wave_marks_partial (ev_link ev) r
  end.

(** Modelled from the spec: a found identifier links the document to the
    requirements of the registry that carry it, and leaves the others as
    they are. *)
Definition step (wave_marks_partial : bool) (ev : event)
  (registry : list requirement) : list requirement :=
  (fun r => if String.eqb (req_id r) (ev_token ev)
            then apply_link wave_marks_partial ev r else r) <$> registry.

(** Modelled from the spec: the registries that a build pass goes
    through, the initial one first; the builder's code is not among the
    sources. *)
Fixpoint trace (wave_marks_partial : bool) (evs : list event)
  (registry : list requirement) : list (list requirement) :=
  registry ::
  match evs with
  | [] => []
  | ev :: evs' => trace wave_marks_partial evs' (step wave_marks_partial ev registry)
  end.

(** Modelled from the spec: the registry that a build pass ends with; the
    builder's code is not among the sources. *)
Definition build (wave_marks_partial : bool) (features waves : list artifact)
  (registry : list requirement) : list requirement :=
  fold_left (fun reg ev => step wave_marks_partial ev reg)
            (pass_events features waves) registry.

(** The order uncovered < partial < covered. *)
Definition rank (st : status) : nat :=
  match st with
  | uncovered => 0
  | partial => 1
  | covered => 2
  end.

(** The status of the requirement at position [i] of a registry. *)
Definition status_at (i : nat) (registry : list requirement) : option status :=
  req_status <$> registry !! i.

(** A registry with one requirement, a Feature document that fully covers
    it and a Wave document that refers to it. *)
Definition sample_registry : list requirement :=
  [mk_requirement "REQ-001" "Users must log in" "Unknown"
     "Functional" [] [] [] uncovered].

Definition sample_features : list artifact :=
  [mk_artifact "1.2" "feature-1.2-login.md" ["REQ-001"]
     full].

Definition sample_waves : list artifact :=
  [mk_artifact "1.2.1" "wave-1.2.1-form.md" ["REQ-001"]
     partial_level].

End Traceability.

(** ** Notions for the statements about the script *)

(** The number of occurrences of a character in a text. *)
Fixpoint count_char (c : ascii) (s : string) : nat :=
  match s with
  | EmptyString => O
  | String c' s' => if Ascii.eqb c' c then S (count_char c s') else count_char c s'
  end.

Section Notions.
Context {lib : PyLib} {os : OS}.

(** The text that the main logic writes to the output file. *)
Definition output_text (n : Z) : string :=
  json_dumps (PyDict [("processed", PyBool true); ("count", PyInt n)]).

(** The last part of the main logic, from [if output_file:] on, at the
    count [n]. *)
Definition write_and_return (d : dict) (n : Z) : M dict := fun s =>
  let output_file := dict_get "output_file" (PyStr "output/result.json") d in
  if truthy output_file then
    match py_open_w output_file s with
    | (Raise e, s1) => (Raise e, s1)
    | (Ok _, s1) =>
        match py_write_close output_file (output_text n) s1 with
        | (Ok _, s2) => (Ok (main_output d n), s2)
        | (Raise e, s2) => (Raise e, s2)
        end
    end
  else (Ok (main_output d n), s).

(** The main logic from [if os.path.exists(input_file):] on. *)
Definition count_and_write (d : dict) : M dict := fun s =>
  let input_file := dict_get "input_file" (PyStr "data/default.txt") d in
  match os_path_exists input_file (fst s) with
  | Raise e => (Raise e, s)
  | Ok false => write_and_return d 0 s
  | Ok true =>
      match py_read input_file s with
      | (Raise e, s1) => (Raise e, s1)
      | (Ok data, s1) =>
          write_and_return d (Z.of_nat (length (split_on newline data))) s1
      end
  end.

(** The threshold values that validation lets through. *)
Definition acceptable_threshold (t : py_value) : Prop :=
  isinstance_int_float t = true /\ ~ negative t.

(** The state after the [if os.path.exists(input_file):] block: a file
    that exists was opened, and is closed again. *)
Definition after_input (d : dict) (s : state) : state :=
  let input_file := dict_get "input_file" (PyStr "data/default.txt") d in
  match os_path_exists input_file (fst s) with
  | Ok true => (fst s, close_descriptor input_file (snd s))
  | _ => s
  end.


End Notions.

(** More documents for the decoder of the reference library, and main
    logics to put into the template. *)
Module Samples.
Import Reference.

Definition more_documents : list (string * py_value) :=
  [ ("[1]", PyList [PyInt 1]);
    ("{" ++ quote "threshold" ++ ": 5}", PyDict [("threshold", PyInt 5)]);
    ("{" ++ quote "required_param" ++ ": null, " ++ quote "input_file" ++ ": "
         ++ quote "notes.txt" ++ ", " ++ quote "output_file" ++ ": null}",
     PyDict [("required_param", PyNone); ("input_file", PyStr "notes.txt");
             ("output_file", PyNone)]);
    ("{" ++ quote "required_param" ++ ": 1, " ++ quote "input_file" ++ ": "
         ++ quote "notes.txt" ++ ", " ++ quote "output_file" ++ ": "
         ++ quote "result.json" ++ ", " ++ quote "threshold" ++ ": 3}",
     PyDict [("required_param", PyInt 1); ("input_file", PyStr "notes.txt");
             ("output_file", PyStr "result.json"); ("threshold", PyInt 3)]);
    ("{" ++ quote "required_param" ++ ": 1, " ++ quote "output_file" ++ ": true}",
     PyDict [("required_param", PyInt 1); ("output_file", PyBool true)]);
    ("{" ++ quote "required_param" ++ ": 1, " ++ quote "input_file" ++ ": true}",
     PyDict [("required_param", PyInt 1); ("input_file", PyBool true)]);
    ("{" ++ quote "required_param" ++ ": 1, " ++ quote "output_file" ++ ": 2}",
     PyDict [("required_param", PyInt 1); ("output_file", PyInt 2)]) ].

Definition all_documents : list (string * py_value) := documents ++ more_documents.

Definition lib : PyLib := {|
  json_loads := decode all_documents;
  json_dumps := dumps 0;
  json_dumps_error := dumps_error;
  str_of_float := float_str;
  msg_not_container := @msg_not_container Reference.lib;
  msg_bad_subscript := @msg_bad_subscript Reference.lib;
  json_dumps_shallow := dumps_error_shallow
|}.

Definition document (i : nat) : string :=
  match all_documents !! i with Some (doc, _) => doc | None => "" end.

Definition decoded (i : nat) : py_value :=
  match all_documents !! i with Some (_, v) => v | None => PyNone end.

End Samples.

(** * Properties of the script *)

Section ScriptFacts.
Context {lib : PyLib} {os : OS}.

(** ** Dictionaries *)

Lemma dict_has_lookup (k : string) (d : dict) :
  dict_has k d = true <-> exists v, dict_lookup k d = Some v.
Proof.
  unfold dict_has. destruct (dict_lookup k d) as [v|]; split.
  - eauto.
  - reflexivity.
  - discriminate.
  - intros [v Hv]. discriminate.
Qed.

Lemma dict_lookup_set_eq (k : string) (v : py_value) (d : dict) :
  dict_lookup k (dict_set k v d) = Some v.
Proof.
  induction d as [|[k' v'] d IH]; simpl.
  - now rewrite String.eqb_refl.
  - destruct (String.eqb k k') eqn:E; simpl; rewrite E; [reflexivity | exact IH].
Qed.

Lemma dict_lookup_set_ne (k k' : string) (v : py_value) (d : dict) :
  k <> k' -> dict_lookup k (dict_set k' v d) = dict_lookup k d.
Proof.
  intros Hne. induction d as [|[k0 v0] d IH]; simpl.
  - destruct (String.eqb_spec k k'); [contradiction | reflexivity].
  - destruct (String.eqb_spec k' k0) as [->|Hk0]; simpl.
    + destruct (String.eqb_spec k k0); [contradiction | reflexivity].
    + destruct (String.eqb k k0); [reflexivity | exact IH].
Qed.

Lemma dict_has_set (k : string) (v : py_value) (d : dict) :
  dict_has k (dict_set k v d) = true.
Proof. unfold dict_has. now rewrite dict_lookup_set_eq. Qed.

Lemma dict_get_set_ne (k k' : string) (v default : py_value) (d : dict) :
  k <> k' -> dict_get k default (dict_set k' v d) = dict_get k default d.
Proof. intros Hne. unfold dict_get. now rewrite dict_lookup_set_ne. Qed.

(** [len(data.split(sep))] is one more than the separators in [data]. *)
Lemma length_split_on (sep : ascii) (s : string) :
  length (split_on sep s) = S (count_char sep s).
Proof.
  induction s as [|c s IH]; [reflexivity|]. simpl.
  destruct (Ascii.eqb c sep).
  - simpl. now rewrite IH.
  - destruct (split_on sep s) as [|x xs]; simpl in *; [discriminate | exact IH].
Qed.

(** ** Numbers *)

Lemma lt_zero_negative (v : py_value) : lt_zero v = true <-> negative v.
Proof.
  destruct v as [| |z|f| | |]; simpl; try (split; [discriminate | tauto]).
  - apply Z.ltb_lt.
  - unfold SFltb. destruct (SFcompare f (S754_zero false)) as [[]|];
      split; congruence.
Qed.

Lemma lt_zero_number (v : py_value) : lt_zero v = true -> is_json_number v = true.
Proof. destruct v; simpl; (discriminate || reflexivity). Qed.

Lemma isinstance_int_float_json (v : py_value) :
  isinstance_int_float v = false <->
  json_type_of v <> JNumber /\ json_type_of v <> JBoolean.
Proof.
  destruct v; simpl; split; try discriminate; try tauto;
    (split; discriminate) || (intros [H1 H2]; congruence).
Qed.

(** ** The standard streams *)

Lemma names_stdout_is_std (p : py_value) : is_std p = false -> names_stdout p = false.
Proof. unfold is_std. now intros [H _]%orb_false_iff. Qed.

Lemma names_stderr_is_std (p : py_value) : is_std p = false -> names_stderr p = false.
Proof. unfold is_std. now intros [_ H]%orb_false_iff. Qed.

Lemma names_stdout_truthy (p : py_value) : names_stdout p = true -> truthy p = true.
Proof.
  unfold names_stdout. destruct p as [|[]|z| | | |]; simpl; try discriminate;
    [reflexivity|]. destruct (Z.eqb_spec z 0) as [->|]; [discriminate | reflexivity].
Qed.


(** Closing a file delivers nothing, and closes the standard output only
    when the file is descriptor 1. *)
Lemma close_descriptor_sent (p : py_value) (io : streams) :
  stdout_sent (close_descriptor p io) = stdout_sent io /\
  stderr_sent (close_descriptor p io) = stderr_sent io.
Proof.
  unfold close_descriptor. destruct (names_stdout p); [now split|].
  destruct (names_stderr p); now split.
Qed.

Lemma close_descriptor_stdout (p : py_value) (io : streams) :
  stdout_closed (close_descriptor p io) = names_stdout p || stdout_closed io.
Proof.
  unfold close_descriptor. destruct (names_stdout p); [reflexivity|].
  destruct (names_stderr p); reflexivity.
Qed.

Lemma close_descriptor_plain (p : py_value) (io : streams) :
  is_std p = false -> close_descriptor p io = io.
Proof.
  intros H. unfold close_descriptor.
  now rewrite (names_stdout_is_std _ H), (names_stderr_is_std _ H).
Qed.

(** ** The monad *)

Lemma bind_lift_ok {A B : Type} (a : A) (k : A -> M B) (s : state) :
  (lift (Ok a) ≫= k) s = k a s.
Proof. reflexivity. Qed.

Lemma bind_lift_raise {A B : Type} (e : exn) (k : A -> M B) (s : state) :
  (@lift _ A (Raise e) ≫= k) s = (Raise e, s).
Proof. reflexivity. Qed.

(** ** Validation *)

(** On an input object, validation looks at the threshold only. *)
Lemma validate_inputs_dict (d : dict) :
  validate_inputs (PyDict d) =
  match dict_lookup "threshold" d with
  | None => Ok tt
  | Some t =>
      if negb (isinstance_int_float t) then
        Raise (ValueError ("threshold must be a number, got " ++ type_name t))
      else if lt_zero t then
        Raise (ValueError ("threshold must be positive, got " ++ format_number t))
      else Ok tt
  end.
Proof.
  unfold validate_inputs, py_contains, py_getitem, dict_has. simpl.
  destruct (dict_lookup "threshold" d); reflexivity.
Qed.

Lemma validate_inputs_unit (inputs : py_value) :
  {validate_inputs inputs = Ok tt} + {exists e, validate_inputs inputs = Raise e}.
Proof. destruct (validate_inputs inputs) as [[]|e]; eauto. Qed.

Lemma validated_threshold (d : dict) :
  validate_inputs (PyDict d) = Ok tt <->
  (forall t, dict_lookup "threshold" d = Some t -> acceptable_threshold t).
Proof.
  rewrite validate_inputs_dict. unfold acceptable_threshold.
  destruct (dict_lookup "threshold" d) as [t|].
  - destruct (isinstance_int_float t) eqn:Hnum; simpl.
    + destruct (lt_zero t) eqn:Hlt; split.
      * discriminate.
      * intros H. destruct (H t eq_refl) as [_ Hneg].
        exfalso. apply Hneg. now apply lt_zero_negative.
      * intros _ t' [= <-]. split; [assumption|].
        intros Hneg. apply lt_zero_negative in Hneg. congruence.
      * reflexivity.
    + split; [discriminate|].
      intros H. destruct (H t eq_refl) as [Hn _]. congruence.
  - split; [intros _ t; discriminate | reflexivity].
Qed.

(** ** The main logic *)

(** On anything but an object the main logic fails at its first line. *)
Lemma main_non_dict (inputs : py_value) (s : state) :
  (forall d, inputs <> PyDict d) ->
  main inputs s =
  (Raise (AttributeError
            ("'" ++ type_name inputs ++ "' object has no attribute 'get'")), s).
Proof.
  intros Hnd. destruct inputs as [| | | | | |d]; try reflexivity.
  now destruct (Hnd d).
Qed.

(** Without the required parameter the main logic raises before it looks
    at the world. *)
Lemma main_missing_required (d : dict) (s : state) :
  dict_has "required_param" d = false ->
  main (PyDict d) s =
  (Raise (ValueError "Missing required parameter: required_param"), s).
Proof.
  intros Hreq. unfold main. simpl py_get. simpl py_contains.
  rewrite !bind_lift_ok, Hreq. reflexivity.
Qed.

(** With the required parameter there, the main logic is the counting and
    the writing. *)
Lemma main_dict (d : dict) (s : state) :
  dict_has "required_param" d = true ->
  main (PyDict d) s = count_and_write d s.
Proof.
  intros Hreq. unfold main, count_and_write. simpl py_get. simpl py_contains.
  rewrite !bind_lift_ok, Hreq. simpl py_getitem.
  apply dict_has_lookup in Hreq as [rv Hrv]. rewrite Hrv, bind_lift_ok.
  unfold mbind, M_bind, observe, write_and_return, output_text.
  set (input_file := dict_get "input_file" _ d).
  set (output_file := dict_get "output_file" _ d).
  cbv zeta.
  destruct (os_path_exists input_file (fst s)) as [[|]|e]; [| |reflexivity].
  - destruct (py_read input_file s) as [[data|e] s1]; [|reflexivity].
    unfold mret, M_ret.
    destruct (truthy output_file); [|reflexivity].
    destruct (py_open_w output_file s1) as [[[]|e] s2]; [|reflexivity].
    destruct (py_write_close output_file _ s2) as [[[]|e] s3]; reflexivity.
  - unfold mret, M_ret.
    destruct (truthy output_file); [|reflexivity].
    destruct (py_open_w output_file s) as [[[]|e] s2]; [|reflexivity].
    destruct (py_write_close output_file _ s2) as [[[]|e] s3]; reflexivity.
Qed.

(** What the writing returns is [main_output]. *)
Lemma write_and_return_ok (d : dict) (n : Z) (s s' : state) (out : dict) :
  write_and_return d n s = (Ok out, s') -> out = main_output d n.
Proof.
  unfold write_and_return. cbv zeta.
  destruct (truthy _); [|now intros [= <- _]].
  destruct (py_open_w _ s) as [[[]|e] s1]; [|discriminate].
  destruct (py_write_close _ _ s1) as [[[]|e] s2]; [|discriminate].
  now intros [= <- _].
Qed.

(** With the count of the input file known, the main logic is the
    writing in the state that the input block leaves. *)
Lemma main_eval (d : dict) (s : state) (n : Z) :
  dict_has "required_param" d = true ->
  count_of (os_path_exists (dict_get "input_file" (PyStr "data/default.txt") d) (fst s))
           (read_text (dict_get "input_file" (PyStr "data/default.txt") d) (fst s))
    = Some n ->
  main (PyDict d) s = write_and_return d n (after_input d s).
Proof.
  intros Hreq Hc. rewrite (main_dict _ _ Hreq).
  unfold count_and_write, after_input, count_of, py_read in *. cbv zeta.
  destruct (os_path_exists _ (fst s)) as [[|]|e]; [| |discriminate].
  - destruct (read_text _ (fst s)) as [data|e]; [|discriminate].
    now injection Hc as <-.
  - now injection Hc as <-.
Qed.

(** When the input file cannot be counted, the main logic raises in the
    state that the input block leaves, and the world is as it was. *)
Lemma main_count_fails (d : dict) (s : state) :
  dict_has "required_param" d = true ->
  count_of (os_path_exists (dict_get "input_file" (PyStr "data/default.txt") d) (fst s))
           (read_text (dict_get "input_file" (PyStr "data/default.txt") d) (fst s))
    = None ->
  exists e, main (PyDict d) s = (Raise e, after_input d s) /\
            (os_path_exists (dict_get "input_file" (PyStr "data/default.txt") d) (fst s)
               = Raise e \/
             (os_path_exists (dict_get "input_file" (PyStr "data/default.txt") d) (fst s)
                = Ok true /\
              read_text (dict_get "input_file" (PyStr "data/default.txt") d) (fst s)
                = Raise e)).
Proof.
  intros Hreq Hc. rewrite (main_dict _ _ Hreq).
  unfold count_and_write, after_input, count_of, py_read in *. cbv zeta.
  destruct (os_path_exists _ (fst s)) as [[|]|e]; [|discriminate|].
  - destruct (read_text _ (fst s)) as [data|e]; [discriminate|].
    exists e. split; [reflexivity | right; now split].
  - exists e. split; [now destruct s | now left].
Qed.

(** Whatever the main logic returns is [main_output] at the count of the
    input file; the main logic returns on an input object only. *)
Lemma main_returns (inputs : py_value) (s s' : state) (out : dict) :
  main inputs s = (Ok out, s') ->
  exists d n,
    inputs = PyDict d /\
    dict_has "required_param" d = true /\
    count_of (os_path_exists (dict_get "input_file" (PyStr "data/default.txt") d) (fst s))
             (read_text (dict_get "input_file" (PyStr "data/default.txt") d) (fst s))
      = Some n /\
    out = main_output d n.
Proof.
  intros Hmain.
  destruct inputs as [| | | | | |d];
    try (rewrite main_non_dict in Hmain by discriminate; discriminate).
  destruct (dict_has "required_param" d) eqn:Hreq.
  2:{ rewrite (main_missing_required _ _ Hreq) in Hmain. discriminate. }
  exists d.
  destruct (count_of (os_path_exists (dict_get "input_file" (PyStr "data/default.txt") d) (fst s))
                     (read_text (dict_get "input_file" (PyStr "data/default.txt") d) (fst s)))
    as [n|] eqn:Hc.
  - exists n. repeat split; try assumption.
    rewrite (main_eval _ _ _ Hreq Hc) in Hmain.
    exact (write_and_return_ok _ _ _ _ _ Hmain).
  - destruct (main_count_fails _ _ Hreq Hc) as (e & He & _).
    rewrite He in Hmain. discriminate.
Qed.

(** ** The writing of the output file *)

Lemma is_std_truthy (p : py_value) : is_std p = true -> truthy p = true.
Proof.
  unfold is_std, names_stdout, names_stderr.
  destruct p as [|[]|z| | | |]; simpl; try discriminate; [reflexivity|].
  destruct (Z.eqb_spec z 0) as [->|]; [discriminate | reflexivity].
Qed.

(** A path that is no standard descriptor is written by the operating
    system, and the streams stay as they are. *)
Lemma write_and_return_plain (d : dict) (n : Z) (w : world) (io : streams) :
  let output_file := dict_get "output_file" (PyStr "output/result.json") d in
  is_std output_file = false ->
  write_and_return d n (w, io) =
  if truthy output_file then
    match open_w output_file w with
    | Raise e => (Raise e, (w, io))
    | Ok w1 =>
        match write_close output_file (output_text n) w1 with
        | (None, w2) => (Ok (main_output d n), (w2, io))
        | (Some e, w2) => (Raise e, (w2, io))
        end
    end
  else (Ok (main_output d n), (w, io)).
Proof.
  intros output_file Hstd. unfold write_and_return, py_open_w, py_write_close.
  cbv zeta. fold output_file. rewrite Hstd. simpl.
  destruct (truthy output_file); [|reflexivity].
  destruct (open_w output_file w) as [w1|e]; [|reflexivity].
  simpl.
  destruct (write_close output_file (output_text n) w1) as [[e|] w2]; reflexivity.
Qed.

(** A standard descriptor is written by the process itself: the text
    reaches the stream, which is closed then; the world stays as it is. *)
Lemma write_and_return_std (d : dict) (n : Z) (w : world) (io : streams) :
  let output_file := dict_get "output_file" (PyStr "output/result.json") d in
  is_std output_file = true ->
  write_and_return d n (w, io) =
  if descriptor_closed output_file io then (Raise bad_descriptor, (w, io))
  else (Ok (main_output d n),
        (w, close_descriptor output_file (send output_file (output_text n) io))).
Proof.
  intros output_file Hstd. unfold write_and_return, py_open_w, py_write_close.
  cbv zeta. fold output_file. rewrite (is_std_truthy _ Hstd), Hstd. simpl.
  destruct (descriptor_closed output_file io); reflexivity.
Qed.

(** A failed writing leaves the streams as they were. *)
Lemma write_and_return_raise (d : dict) (n : Z) (s s' : state) (e : exn) :
  write_and_return d n s = (Raise e, s') -> snd s' = snd s.
Proof.
  destruct s as [w io].
  destruct (is_std (dict_get "output_file" (PyStr "output/result.json") d)) eqn:Hstd.
  - rewrite (write_and_return_std _ _ _ _ Hstd).
    destruct (descriptor_closed _ io); [now intros [= _ <-] | discriminate].
  - rewrite (write_and_return_plain _ _ _ _ Hstd).
    destruct (truthy _); [|discriminate].
    destruct (open_w _ w) as [w1|e1]; [|now intros [= _ <-]].
    destruct (write_close _ _ w1) as [[e1|] w2]; [now intros [= _ <-] | discriminate].
Qed.

(** The writing touches the standard output only through descriptor 1. *)
Lemma write_and_return_stdout (d : dict) (n : Z) (s s' : state) (r : result dict) :
  write_and_return d n s = (r, s') ->
  names_stdout (dict_get "output_file" (PyStr "output/result.json") d) = false ->
  stdout_closed (snd s') = stdout_closed (snd s) /\
  stdout_sent (snd s') = stdout_sent (snd s).
Proof.
  destruct s as [w io]. intros Hw Hout.
  destruct (is_std (dict_get "output_file" (PyStr "output/result.json") d)) eqn:Hstd.
  - rewrite (write_and_return_std _ _ _ _ Hstd) in Hw.
    destruct (descriptor_closed _ io); [now injection Hw as _ <-|].
    injection Hw as _ <-. simpl.
    rewrite close_descriptor_stdout, Hout.
    destruct (close_descriptor_sent
                (dict_get "output_file" (PyStr "output/result.json") d)
                (send (dict_get "output_file" (PyStr "output/result.json") d)
                      (output_text n) io)) as [-> _].
    unfold send. rewrite Hout.
    destruct (names_stderr _); split; reflexivity.
  - rewrite (write_and_return_plain _ _ _ _ Hstd) in Hw.
    destruct (truthy _); [|now injection Hw as _ <-].
    destruct (open_w _ w) as [w1|e1]; [|now injection Hw as _ <-].
    destruct (write_close _ _ w1) as [[e1|] w2]; now injection Hw as _ <-.
Qed.

(** The writing delivers to the standard error only through
    descriptor 2. *)
Lemma write_and_return_stderr (d : dict) (n : Z) (s s' : state) (r : result dict) :
  write_and_return d n s = (r, s') ->
  names_stderr (dict_get "output_file" (PyStr "output/result.json") d) = false ->
  stderr_sent (snd s') = stderr_sent (snd s).
Proof.
  destruct s as [w io]. intros Hw Herr.
  destruct (is_std (dict_get "output_file" (PyStr "output/result.json") d)) eqn:Hstd.
  - rewrite (write_and_return_std _ _ _ _ Hstd) in Hw.
    destruct (descriptor_closed _ io); [now injection Hw as _ <-|].
    injection Hw as _ <-. simpl.
    destruct (close_descriptor_sent
                (dict_get "output_file" (PyStr "output/result.json") d)
                (send (dict_get "output_file" (PyStr "output/result.json") d)
                      (output_text n) io)) as [_ ->].
    unfold send. rewrite Herr. destruct (names_stdout _); reflexivity.
  - rewrite (write_and_return_plain _ _ _ _ Hstd) in Hw.
    destruct (truthy _); [|now injection Hw as _ <-].
    destruct (open_w _ w) as [w1|e1]; [|now injection Hw as _ <-].
    destruct (write_close _ _ w1) as [[e1|] w2]; now injection Hw as _ <-.
Qed.

(** The writing changes the world only by opening and writing a file
    that is no standard descriptor. *)
Lemma write_and_return_world (d : dict) (n : Z) (s : state) :
  fst (snd (write_and_return d n s)) = fst s \/
  exists w1,
    truthy (dict_get "output_file" (PyStr "output/result.json") d) = true /\
    open_w (dict_get "output_file" (PyStr "output/result.json") d) (fst s) = Ok w1 /\
    fst (snd (write_and_return d n s)) =
    snd (write_close (dict_get "output_file" (PyStr "output/result.json") d)
           (output_text n) w1).
Proof.
  destruct s as [w io].
  destruct (is_std (dict_get "output_file" (PyStr "output/result.json") d)) eqn:Hstd.
  - left. rewrite (write_and_return_std _ _ _ _ Hstd).
    destruct (descriptor_closed _ io); reflexivity.
  - rewrite (write_and_return_plain _ _ _ _ Hstd).
    change (fst (w, io)) with w.
    destruct (truthy _) eqn:Ht; [|now left].
    destruct (open_w _ w) as [w1|e] eqn:Ho; [|now left].
    right. exists w1. split; [reflexivity|]. split; [reflexivity|].
    destruct (write_close (dict_get "output_file" (PyStr "output/result.json") d)
                (output_text n) w1) as [[e|] w2]; reflexivity.
Qed.

(** ** The input block *)

Lemma after_input_world (d : dict) (s : state) : fst (after_input d s) = fst s.
Proof.
  unfold after_input. cbv zeta.
  destruct (os_path_exists _ (fst s)) as [[|]|e]; reflexivity.
Qed.

Lemma after_input_sent (d : dict) (s : state) :
  stdout_sent (snd (after_input d s)) = stdout_sent (snd s) /\
  stderr_sent (snd (after_input d s)) = stderr_sent (snd s).
Proof.
  unfold after_input. cbv zeta.
  destruct (os_path_exists _ (fst s)) as [[|]|e]; try (split; reflexivity).
  apply close_descriptor_sent.
Qed.

Lemma after_input_stdout (d : dict) (s : state) :
  names_stdout (dict_get "input_file" (PyStr "data/default.txt") d) = false ->
  stdout_closed (snd (after_input d s)) = stdout_closed (snd s).
Proof.
  intros Hin. unfold after_input. cbv zeta.
  destruct (os_path_exists _ (fst s)) as [[|]|e]; try reflexivity.
  simpl. now rewrite close_descriptor_stdout, Hin.
Qed.

Lemma after_input_missing (d : dict) (s : state) :
  os_path_exists (dict_get "input_file" (PyStr "data/default.txt") d) (fst s)
    = Ok false ->
  after_input d s = s.
Proof. intros H. unfold after_input. cbv zeta. now rewrite H. Qed.

(** ** The main logic and the standard streams *)

(** A main logic that raises has delivered nothing, and has closed the
    standard output only if descriptor 1 is its input file. *)
Lemma main_raise_streams (d : dict) (s s' : state) (e : exn) :
  main (PyDict d) s = (Raise e, s') ->
  names_stdout (dict_get "input_file" (PyStr "data/default.txt") d) = false ->
  stdout_closed (snd s') = stdout_closed (snd s) /\
  stdout_sent (snd s') = stdout_sent (snd s) /\
  stderr_sent (snd s') = stderr_sent (snd s).
Proof.
  intros Hmain Hin.
  destruct (dict_has "required_param" d) eqn:Hreq.
  2:{ rewrite (main_missing_required _ _ Hreq) in Hmain.
      injection Hmain as _ <-. repeat split. }
  destruct (after_input_sent d s) as [Hso Hse].
  destruct (count_of (os_path_exists (dict_get "input_file" (PyStr "data/default.txt") d) (fst s))
                     (read_text (dict_get "input_file" (PyStr "data/default.txt") d) (fst s)))
    as [n|] eqn:Hc.
  - rewrite (main_eval _ _ _ Hreq Hc) in Hmain.
    rewrite (write_and_return_raise _ _ _ _ _ Hmain), Hso, Hse.
    now rewrite (after_input_stdout _ _ Hin).
  - destruct (main_count_fails _ _ Hreq Hc) as (e' & He & _).
    rewrite He in Hmain. injection Hmain as _ <-.
    now rewrite Hso, Hse, (after_input_stdout _ _ Hin).
Qed.


(** A main logic delivers to the standard error only by writing its
    output to descriptor 2. *)
Lemma main_stderr (d : dict) (s s' : state) (r : result dict) :
  main (PyDict d) s = (r, s') ->
  names_stderr (dict_get "output_file" (PyStr "output/result.json") d) = false ->
  stderr_sent (snd s') = stderr_sent (snd s).
Proof.
  intros Hmain Herr.
  destruct (dict_has "required_param" d) eqn:Hreq.
  2:{ rewrite (main_missing_required _ _ Hreq) in Hmain. now injection Hmain as _ <-. }
  destruct (after_input_sent d s) as [_ Hse].
  destruct (count_of (os_path_exists (dict_get "input_file" (PyStr "data/default.txt") d) (fst s))
                     (read_text (dict_get "input_file" (PyStr "data/default.txt") d) (fst s)))
    as [n|] eqn:Hc.
  - rewrite (main_eval _ _ _ Hreq Hc) in Hmain.
    now rewrite (write_and_return_stderr _ _ _ _ _ Hmain Herr).
  - destruct (main_count_fails _ _ Hreq Hc) as (e' & He & _).
    rewrite He in Hmain. now injection Hmain as _ <-.
Qed.

(** ** What the encoder is given *)

Lemma nesting_falsy (v : py_value) : truthy v = false -> (nesting v <= 1)%nat.
Proof.
  destruct v as [| | | | |l|d]; simpl; try lia.
  - destruct l; [simpl; lia | discriminate].
  - destruct d; [simpl; lia | discriminate].
Qed.

Lemma nesting_path_like (p : py_value) : path_like p = true -> nesting p = 0%nat.
Proof. destruct p; (reflexivity || discriminate). Qed.

Lemma nesting_number (v : py_value) :
  isinstance_int_float v = true -> nesting v = 0%nat.
Proof. destruct v; (reflexivity || discriminate). Qed.

Lemma is_std_path_like (p : py_value) : is_std p = true -> path_like p = true.
Proof.
  unfold is_std, names_stdout, names_stderr.
  destruct p; (reflexivity || discriminate).
Qed.

(** An output file that was opened is a str, an int or a bool. *)
Lemma py_open_w_path (p : py_value) (s s' : state) :
  py_open_w p s = (Ok tt, s') -> path_like p = true.
Proof.
  unfold py_open_w. destruct (is_std p) eqn:Hstd.
  - intros _. now apply is_std_path_like.
  - destruct (open_w p (fst s)) as [w1|e] eqn:Ho; [|discriminate].
    intros _. exact (open_w_path _ _ _ Ho).
Qed.

(** When the writing returns, the output file is a falsy value or a
    path. *)
Lemma write_and_return_output_file (d : dict) (n : Z) (s s' : state) (out : dict) :
  write_and_return d n s = (Ok out, s') ->
  (nesting (dict_get "output_file" (PyStr "output/result.json") d) <= 1)%nat.
Proof.
  unfold write_and_return. cbv zeta.
  destruct (truthy _) eqn:Ht; [|intros _; now apply nesting_falsy].
  destruct (py_open_w _ s) as [[[]|e] s1] eqn:Ho; [|discriminate].
  intros _. rewrite (nesting_path_like _ (py_open_w_path _ _ _ Ho)). lia.
Qed.

Lemma main_output_nesting (d : dict) (n : Z) :
  (nesting (dict_get "output_file" (PyStr "output/result.json") d) <= 1)%nat ->
  nesting (dict_get "threshold" (PyInt 10) d) = 0%nat ->
  (nesting (PyDict (main_output d n)) <= 2)%nat.
Proof. intros Ho Ht. unfold main_output. simpl. rewrite Ht. lia. Qed.

(** ** The entry point *)

Lemma read_inputs_empty : read_inputs "" = Ok (PyDict []).
Proof. reflexivity. Qed.


Lemma processing_rejected (m : py_value -> M dict) (inputs : py_value)
  (e : exn) (s : state) :
  validate_inputs inputs = Raise e -> processing m inputs s = (Raise e, s).
Proof. intros H. unfold processing. now rewrite H. Qed.

Lemma processing_validated (m : py_value -> M dict) (inputs : py_value)
  (s : state) :
  validate_inputs inputs = Ok tt ->
  processing m inputs s =
  match m inputs s with
  | (Ok output, s') =>
      (Ok (if dict_has "success" output then output
           else dict_set "success" (PyBool true) output), s')
  | (Raise e, s') => (Raise e, s')
  end.
Proof.
  intros H. unfold processing. rewrite H, bind_lift_ok.
  unfold mbind, M_bind. destruct (m inputs s) as [[out|e] s']; reflexivity.
Qed.

(** The main logic of the template sets the success flag itself. *)
Lemma processing_main (inputs : py_value) (s : state) :
  validate_inputs inputs = Ok tt ->
  processing main inputs s = main inputs s.
Proof.
  intros Hv. rewrite (processing_validated _ _ _ Hv).
  destruct (main inputs s) as [[out|e] s'] eqn:Hmain; [|reflexivity].
  destruct (main_returns _ _ _ _ Hmain) as (d & n & _ & _ & _ & ->). reflexivity.
Qed.

Lemma run_with_inputs (m : py_value -> M dict) (stdin : string)
  (inputs : py_value) (w : world) :
  read_inputs stdin = Ok inputs ->
  run_with m stdin w =
  match processing m inputs (w, initial_streams) with
  | (Ok output, (w', io)) =>
      match json_dumps_error (PyDict output) with
      | Some e1 => report_error e1 w' io
      | None =>
          match py_print (json_dumps (PyDict output)) io with
          | (None, io1) => interpreter_exit 0 None w' io1
          | (Some e1, io1) => report_error e1 w' io1
          end
      end
  | (Raise e, (w', io)) => report_error e w' io
  end.
Proof. intros H. unfold run_with. now rewrite H. Qed.

(** The result of the main logic of the template is an object of scalars
    and empty containers, which the encoder encodes. *)
Lemma main_result_encodes (inputs : py_value) (s s' : state) (r : result dict) :
  processing main inputs s = (r, s') ->
  forall out, r = Ok out -> json_dumps_error (PyDict out) = None.
Proof.
  intros Hproc out ->.
  destruct (validate_inputs_unit inputs) as [Hv|[e Hv]].
  2:{ rewrite (processing_rejected _ _ _ _ Hv) in Hproc. discriminate. }
  rewrite (processing_main _ _ Hv) in Hproc.
  destruct (main_returns _ _ _ _ Hproc) as (d & n & -> & Hreq & Hc & ->).
  rewrite (main_eval _ _ _ Hreq Hc) in Hproc.
  apply json_dumps_shallow, main_output_nesting.
  - exact (write_and_return_output_file _ _ _ _ _ Hproc).
  - unfold dict_get.
    destruct (dict_lookup "threshold" d) as [t|] eqn:Ht; [|reflexivity].
    apply nesting_number.
    now destruct (proj1 (validated_threshold d) Hv t Ht).
Qed.

(** An exception is no result to encode. *)
Lemma no_result_to_encode (e : exn) :
  forall out : dict, Raise e = Ok out -> json_dumps_error (PyDict out) = None.
Proof. discriminate. Qed.

(** The text that a run prints after processing. *)
Lemma run_with_open (m : py_value -> M dict) (stdin : string)
  (inputs : py_value) (r : result dict) (w w' : world) (io : streams) :
  read_inputs stdin = Ok inputs ->
  processing m inputs (w, initial_streams) = (r, (w', io)) ->
  stdout_closed io = false ->
  (forall out, r = Ok out -> json_dumps_error (PyDict out) = None) ->
  run_with m stdin w =
  mk_outcome
    (stdout_sent io ++
     [json_dumps (match r with Ok output => PyDict output | Raise e => handler e end)])
    (stderr_sent io)
    (match r with Ok _ => 0 | Raise _ => 1 end)
    w'.
Proof.
  intros Hin Hproc Hopen Henc.
  rewrite (run_with_inputs _ _ _ _ Hin), Hproc.
  destruct r as [out|e]; [rewrite (Henc out eq_refl)|];
    unfold report_error, py_print, interpreter_exit; rewrite Hopen; simpl;
    rewrite ?Hopen; reflexivity.
Qed.

(** The text that a run prints when the encoder refuses the result. *)
Lemma run_with_refused (m : py_value -> M dict) (stdin : string)
  (inputs : py_value) (out : dict) (e : exn) (w w' : world) (io : streams) :
  read_inputs stdin = Ok inputs ->
  processing m inputs (w, initial_streams) = (Ok out, (w', io)) ->
  stdout_closed io = false ->
  json_dumps_error (PyDict out) = Some e ->
  run_with m stdin w =
  mk_outcome (stdout_sent io ++ [json_dumps (handler e)]) (stderr_sent io) 1 w'.
Proof.
  intros Hin Hproc Hopen Henc.
  rewrite (run_with_inputs _ _ _ _ Hin), Hproc, Henc.
  unfold report_error, py_print, interpreter_exit; rewrite Hopen; simpl;
    rewrite ?Hopen; reflexivity.
Qed.

(** Once the script has closed its standard output, what it prints is
    lost and the exit code is 120. *)
Lemma run_with_closed (m : py_value -> M dict) (stdin : string)
  (inputs : py_value) (r : result dict) (w w' : world) (io : streams) :
  read_inputs stdin = Ok inputs ->
  processing m inputs (w, initial_streams) = (r, (w', io)) ->
  stdout_closed io = true ->
  exit_code (run_with m stdin w) = 120 /\
  stdout (run_with m stdin w) = stdout_sent io /\
  final_world (run_with m stdin w) = w'.
Proof.
  intros Hin Hproc Hclosed.
  rewrite (run_with_inputs _ _ _ _ Hin), Hproc.
  assert (Hrep : forall r0 io0, stdout_closed io0 = true ->
            stdout_closed (report_to_stderr r0 io0) = true /\
            stdout_sent (report_to_stderr r0 io0) = stdout_sent io0).
  { intros r0 io0 H0. unfold report_to_stderr.
    destruct (stderr_closed io0); simpl; auto. }
  assert (Hexit : forall code u,
            exit_code (interpreter_exit code u w' io) = 120 /\
            stdout (interpreter_exit code u w' io) = stdout_sent io /\
            final_world (interpreter_exit code u w' io) = w').
  { intros code u. unfold interpreter_exit. cbv zeta.
    destruct u as [chain|].
    - destruct (Hrep (Traceback chain) io Hclosed) as [Hc Hs]. rewrite Hc. simpl.
      destruct (Hrep FlushFailure _ Hc) as [_ Hs2]. now rewrite Hs2, Hs.
    - rewrite Hclosed. simpl.
      destruct (Hrep FlushFailure _ Hclosed) as [_ Hs2]. now rewrite Hs2. }
  assert (Herror : forall e,
            exit_code (report_error e w' io) = 120 /\
            stdout (report_error e w' io) = stdout_sent io /\
            final_world (report_error e w' io) = w').
  { intros e. unfold report_error, py_print. rewrite Hclosed.
    destruct stdout_line_buffered; apply Hexit. }
  destruct r as [out|e]; [|apply Herror].
  destruct (json_dumps_error (PyDict out)); [apply Herror|].
  unfold py_print. rewrite Hclosed.
  destruct stdout_line_buffered; [apply Herror | apply Hexit].
Qed.

(** A [ValueError] itself is reported by the second clause. *)
Lemma handler_ValueError (msg : string) :
  handler (ValueError msg) = error_output ("Invalid value: " ++ msg) "ValueError".
Proof. reflexivity. Qed.



(** A run that fails before the main logic touches a file. *)
Lemma run_early_failure (m : py_value -> M dict) (stdin : string)
  (inputs : py_value) (e : exn) (w : world) :
  read_inputs stdin = Ok inputs ->
  processing m inputs (w, initial_streams) = (Raise e, (w, initial_streams)) ->
  run_with m stdin w = mk_outcome [json_dumps (handler e)] [] 1 w.
Proof.
  intros Hin Hproc.
  now rewrite (run_with_open _ _ _ _ _ _ _ Hin Hproc eq_refl (no_result_to_encode e)).
Qed.

(** What processing with the main logic of the template does to the
    streams when descriptor 1 is not its input file and it raises. *)
Lemma processing_raise_streams (inputs : py_value) (e : exn) (w w' : world)
  (io : streams) :
  processing main inputs (w, initial_streams) = (Raise e, (w', io)) ->
  (forall d, inputs = PyDict d ->
             names_stdout (dict_get "input_file" (PyStr "data/default.txt") d) = false) ->
  stdout_closed io = false /\ stdout_sent io = [] /\ stderr_sent io = [].
Proof.
  intros Hproc Hin.
  destruct (validate_inputs_unit inputs) as [Hv|[e' Hv]].
  2:{ rewrite (processing_rejected _ _ _ _ Hv) in Hproc.
      injection Hproc as _ _ <-. repeat split. }
  rewrite (processing_main _ _ Hv) in Hproc.
  destruct inputs as [| | | | | |d];
    try (rewrite main_non_dict in Hproc by discriminate;
         injection Hproc as _ _ <-; repeat split).
  exact (main_raise_streams _ _ _ _ Hproc (Hin d eq_refl)).
Qed.

(** ** Stdin *)

(** C9: empty stdin is not treated as malformed JSON.  On an empty stdin
    text the decoder is not consulted: the input is the empty object,
    validation accepts it, and the run ends with the ValueError of the
    missing required parameter and exit code 1, not with a
    JSONDecodeError; the world is left as it was. *)
Theorem empty_stdin_is_empty_object (w : world) :
  read_inputs "" = Ok (PyDict []) /\
  validate_inputs (PyDict []) = Ok tt /\
  run "" w =
  mk_outcome
    [json_dumps (error_output
       "Invalid value: Missing required parameter: required_param" "ValueError")]
    [] 1 w.
Proof.
  split; [reflexivity|]. split; [reflexivity|].
  unfold run.
  rewrite (run_early_failure _ _ _
             (ValueError "Missing required parameter: required_param") _
             read_inputs_empty);
    [reflexivity|].
  rewrite processing_main by reflexivity.
  now rewrite main_missing_required.
Qed.


(** ** Exit codes *)


(** ** The success flag *)


(** ** Validation of the threshold *)

(** C4, as amended: for every input object whose threshold is neither a
    number nor a boolean, or is a number below zero, validation raises a
    ValueError before the main logic executes: the outcome is the same for
    every main logic, the world is left as it was, the error object has
    error_type ValueError and names the type of a non-numeric threshold or
    the value of a negative one, and the exit code is 1.  A boolean
    threshold passes validation. *)
Theorem invalid_threshold_rejected :
  (forall (m : py_value -> M dict) (stdin : string) (d : dict) (t : py_value)
          (w : world),
     read_inputs stdin = Ok (PyDict d) ->
     dict_lookup "threshold" d = Some t ->
     (json_type_of t <> JNumber /\ json_type_of t <> JBoolean) \/ negative t ->
     let msg :=
       if isinstance_int_float t
       then "threshold must be positive, got " ++ format_number t
       else "threshold must be a number, got " ++ type_name t in
     validate_inputs (PyDict d) = Raise (ValueError msg) /\
     run_with m stdin w =
     mk_outcome
       [json_dumps (PyDict [("success", PyBool false);
                            ("error", PyStr ("Invalid value: " ++ msg));
                            ("error_type", PyStr "ValueError")])]
       [] 1 w) /\
  (forall (d : dict) (b : bool),
     dict_lookup "threshold" d = Some (PyBool b) ->
     validate_inputs (PyDict d) = Ok tt).
Proof.
  split.
  - intros m stdin d t w Hin Ht Hbad msg.
    assert (Hv : validate_inputs (PyDict d) = Raise (ValueError msg)).
    { rewrite validate_inputs_dict, Ht. subst msg.
      destruct Hbad as [Hty|Hneg].
      - apply isinstance_int_float_json in Hty. now rewrite Hty.
      - apply lt_zero_negative in Hneg.
        destruct t; simpl in Hneg; try discriminate; simpl; now rewrite Hneg. }
    split; [exact Hv|].
    rewrite (run_early_failure _ _ _ (ValueError msg) _ Hin); [reflexivity|].
    now apply processing_rejected.
  - intros d b Ht. rewrite validate_inputs_dict, Ht. reflexivity.
Qed.

(** C10: validation accepts a threshold of exactly 0; on an input object
    it raises only when the threshold is not a number or is strictly less
    than 0; and the message for a negative number says that the threshold
    must be positive. *)
Theorem threshold_zero_accepted :
  (forall (d : dict) (t : py_value),
     dict_lookup "threshold" d = Some t ->
     t = PyInt 0 \/ (exists s, t = PyFloat (S754_zero s)) ->
     validate_inputs (PyDict d) = Ok tt) /\
  (forall (d : dict) (e : exn),
     validate_inputs (PyDict d) = Raise e ->
     exists t, dict_lookup "threshold" d = Some t /\
               (is_json_number t = false \/ negative t)) /\
  (forall (d : dict) (t : py_value),
     dict_lookup "threshold" d = Some t ->
     negative t ->
     validate_inputs (PyDict d) =
     Raise (ValueError ("threshold must be positive, got " ++ format_number t))).
Proof.
  split; [|split].
  - intros d t Ht [->|[s ->]]; rewrite validate_inputs_dict, Ht; reflexivity.
  - intros d e. rewrite validate_inputs_dict.
    destruct (dict_lookup "threshold" d) as [t|]; [|discriminate].
    intros H. exists t. split; [reflexivity|].
    destruct (isinstance_int_float t) eqn:Hnum; simpl in H.
    + destruct (lt_zero t) eqn:Hlt; [|discriminate].
      right. now apply lt_zero_negative.
    + left. destruct t; simpl in *; (reflexivity || discriminate).
  - intros d t Ht Hneg. rewrite validate_inputs_dict, Ht.
    apply lt_zero_negative in Hneg.
    destruct t; simpl in Hneg; try discriminate; simpl; now rewrite Hneg.
Qed.

(** ** Exceptions of processing *)


(** ** Files that do not exist *)

(** C3, as amended: an input file that does not exist is no error: it is
    skipped, the count is 0, and when the output is written to a file that
    is no standard descriptor, or no output file is named, the run exits
    with 0.  A FileNotFoundError raised during processing is reported as a
    JSON error object with error_type FileNotFoundError on stdout, nothing
    reaches stderr, and the exit code is 1 (unless descriptor 1 is the
    input file).  When it is the opening of the output file that fails, no
    output is written: the world is left as it was. *)
Theorem missing_file_handling :
  (forall (stdin : string) (d : dict) (w w' : world),
     let output_file := dict_get "output_file" (PyStr "output/result.json") d in
     read_inputs stdin = Ok (PyDict d) ->
     validate_inputs (PyDict d) = Ok tt ->
     dict_has "required_param" d = true ->
     os_path_exists (dict_get "input_file" (PyStr "data/default.txt") d) w = Ok false ->
     (truthy output_file = false /\ w' = w) \/
     (truthy output_file = true /\ is_std output_file = false /\
      exists w1, open_w output_file w = Ok w1 /\
                 write_close output_file (output_text 0) w1 = (None, w')) ->
     run stdin w =
     mk_outcome [json_dumps (PyDict (main_output d 0))] [] 0 w') /\
  (forall (stdin : string) (d : dict) (e : exn) (w w' : world) (io' : streams),
     read_inputs stdin = Ok (PyDict d) ->
     names_stdout (dict_get "input_file" (PyStr "data/default.txt") d) = false ->
     processing main (PyDict d) (w, initial_streams) = (Raise e, (w', io')) ->
     isinstance e "FileNotFoundError" = true ->
     run stdin w =
     mk_outcome
       [json_dumps (PyDict [("success", PyBool false);
                            ("error", PyStr ("File not found: " ++ exn_str e));
                            ("error_type", PyStr "FileNotFoundError")])]
       [] 1 w') /\
  (forall (stdin : string) (d : dict) (n : Z) (e : exn) (w : world),
     let input_file := dict_get "input_file" (PyStr "data/default.txt") d in
     let output_file := dict_get "output_file" (PyStr "output/result.json") d in
     read_inputs stdin = Ok (PyDict d) ->
     validate_inputs (PyDict d) = Ok tt ->
     dict_has "required_param" d = true ->
     count_of (os_path_exists input_file w) (read_text input_file w) = Some n ->
     names_stdout input_file = false ->
     truthy output_file = true ->
     is_std output_file = false ->
     open_w output_file w = Raise e ->
     run stdin w = mk_outcome [json_dumps (handler e)] [] 1 w).
Proof.
  split; [|split].
  - intros stdin d w w' output_file Hin Hv Hreq Hfound Hout.
    assert (Hcount : count_of (os_path_exists (dict_get "input_file" (PyStr "data/default.txt") d) w) (read_text (dict_get "input_file" (PyStr "data/default.txt") d) w) = Some 0)
      by now rewrite Hfound.
    assert (Hproc : processing main (PyDict d) (w, initial_streams)
                    = (Ok (main_output d 0), (w', initial_streams))).
    { rewrite (processing_main _ _ Hv), (main_eval d (w, initial_streams) 0 Hreq Hcount),
        (after_input_missing d (w, initial_streams) Hfound).
      destruct Hout as [[Hf ->]|(Ht & Hstd & w1 & Ho & Hw)].
      - unfold write_and_return. cbv zeta. fold output_file. now rewrite Hf.
      - rewrite (write_and_return_plain _ _ _ _ Hstd). fold output_file.
        now rewrite Ht, Ho, Hw. }
    unfold run. now rewrite (run_with_open _ _ _ _ _ _ _ Hin Hproc eq_refl (main_result_encodes _ _ _ _ Hproc)).
  - intros stdin d e w w' io' Hin Hnin Hproc Hfnf.
    destruct (processing_raise_streams _ _ _ _ _ Hproc) as (Hc & Hs & Hse).
    { now intros d0 [= <-]. }
    unfold run.
    rewrite (run_with_open _ _ _ _ _ _ _ Hin Hproc Hc (main_result_encodes _ _ _ _ Hproc)), Hs, Hse.
    unfold handler. now rewrite Hfnf.
  - intros stdin d n e w input_file output_file Hin Hv Hreq Hcount Hnin
      Htruthy Hstd Hopen.
    assert (Hproc : processing main (PyDict d) (w, initial_streams)
                    = (Raise e, (w, snd (after_input d (w, initial_streams))))).
    { rewrite (processing_main _ _ Hv), (main_eval d (w, initial_streams) n Hreq Hcount).
      destruct (after_input d (w, initial_streams)) as [w0 io0] eqn:Hafter.
      assert (Hw0 : w0 = w).
      { pose proof (after_input_world d (w, initial_streams)) as H.
        now rewrite Hafter in H. }
      subst w0. rewrite (write_and_return_plain _ _ _ _ Hstd).
      fold output_file. now rewrite Htruthy, Hopen. }
    destruct (processing_raise_streams _ _ _ _ _ Hproc) as (Hc & Hs & Hse).
    { now intros d0 [= <-]. }
    unfold run.
    now rewrite (run_with_open _ _ _ _ _ _ _ Hin Hproc Hc (main_result_encodes _ _ _ _ Hproc)), Hs, Hse.
Qed.

(** ** Determinism *)

(** C6: two runs of the main logic on the same input object, in worlds
    that agree on the input file (on whether it exists and, where it does,
    on what reading it gives), return the same output dictionary. *)
Theorem main_deterministic (d : dict) (w1 w2 w1' w2' : world)
  (io1 io2 io1' io2' : streams) (out1 out2 : dict) :
  let input_file := dict_get "input_file" (PyStr "data/default.txt") d in
  os_path_exists input_file w1 = os_path_exists input_file w2 ->
  (os_path_exists input_file w1 = Ok true ->
   read_text input_file w1 = read_text input_file w2) ->
  main (PyDict d) (w1, io1) = (Ok out1, (w1', io1')) ->
  main (PyDict d) (w2, io2) = (Ok out2, (w2', io2')) ->
  out1 = out2.
Proof.
  intros input_file Hex Hrd H1 H2.
  destruct (main_returns _ _ _ _ H1) as (d1 & n1 & [= <-] & _ & Hc1 & ->).
  destruct (main_returns _ _ _ _ H2) as (d2 & n2 & [= <-] & _ & Hc2 & ->).
  simpl fst in Hc1, Hc2. fold input_file in Hc1, Hc2. rewrite <- Hex in Hc2.
  unfold count_of in Hc1, Hc2.
  destruct (os_path_exists input_file w1) as [[|]|e]; [| |discriminate].
  - rewrite <- Hrd in Hc2 by reflexivity. congruence.
  - congruence.
Qed.

(** * Further properties of the script *)

(** ** Inputs that are no objects *)

(** X1: when stdin decodes to a JSON value that is no object (an array, a
    string, a number, a boolean or null), the run fails with a TypeError
    or an AttributeError, which the last clause reports under its own type
    name; the exit code is 1 and the world is left as it was. *)
Theorem non_object_input_rejected (stdin : string) (inputs : py_value)
  (w : world) :
  read_inputs stdin = Ok inputs ->
  (forall d, inputs <> PyDict d) ->
  exists e,
    (exn_type e = "TypeError" \/ exn_type e = "AttributeError") /\
    (forall io, processing main inputs (w, io) = (Raise e, (w, io))) /\
    run stdin w =
    mk_outcome
      [json_dumps (PyDict [("success", PyBool false);
                           ("error", PyStr (exn_str e));
                           ("error_type", PyStr (exn_type e))])]
      [] 1 w.
Proof.
  intros Hin Hnd.
  assert (Hproc : exists e,
            (e = TypeError (msg_not_container inputs) \/
             e = TypeError (msg_bad_subscript inputs) \/
             e = AttributeError
                   ("'" ++ type_name inputs ++ "' object has no attribute 'get'")) /\
            forall io, processing main inputs (w, io) = (Raise e, (w, io))).
  { destruct (validate_inputs_unit inputs) as [Hv|[e Hv]].
    - eexists. split; [right; right; reflexivity|]. intros io.
      rewrite (processing_main _ _ Hv), (main_non_dict _ _ Hnd). reflexivity.
    - exists e. split; [|intros io; now apply processing_rejected].
      destruct inputs as [| | | |s|l|d]; try (left; now injection Hv as <-).
      + unfold validate_inputs in Hv. simpl in Hv.
        destruct (is_substring "threshold" s); [|discriminate].
        right; left. now injection Hv as <-.
      + unfold validate_inputs in Hv. simpl in Hv.
        destruct (existsb (is_str "threshold") l); [|discriminate].
        right; left. now injection Hv as <-.
      + now destruct (Hnd d). }
  destruct Hproc as (e & He & Hproc). exists e.
  split; [destruct He as [->|[->| ->]]; auto|].
  split; [exact Hproc|].
  unfold run. rewrite (run_early_failure _ _ _ e _ Hin (Hproc initial_streams)).
  destruct He as [->|[->| ->]]; reflexivity.
Qed.

(** ** What a run does to the world *)

Lemma processing_inputs_cases (inputs : py_value) (s : state) :
  (exists e, processing main inputs s = (Raise e, s)) \/
  (exists d, inputs = PyDict d /\ validate_inputs (PyDict d) = Ok tt /\
             dict_has "required_param" d = true /\
             processing main inputs s = count_and_write d s).
Proof.
  destruct (validate_inputs_unit inputs) as [Hv|[e Hv]].
  2:{ left. exists e. now apply processing_rejected. }
  rewrite (processing_main _ _ Hv).
  destruct inputs as [| | | | | |d];
    try (left; eexists; rewrite main_non_dict by discriminate; reflexivity).
  destruct (dict_has "required_param" d) eqn:Hreq.
  - right. exists d. repeat split; try assumption. now apply main_dict.
  - left. eexists. now rewrite (main_missing_required _ _ Hreq).
Qed.

(** The final world of a run is the world that processing leaves. *)
Lemma final_world_processing (m : py_value -> M dict) (stdin : string)
  (inputs : py_value) (w : world) :
  read_inputs stdin = Ok inputs ->
  final_world (run_with m stdin w)
  = fst (snd (processing m inputs (w, initial_streams))).
Proof.
  intros Hin.
  destruct (processing m inputs (w, initial_streams)) as [r [w' io]] eqn:Hproc.
  rewrite (run_with_inputs _ _ _ _ Hin), Hproc. simpl.
  assert (Hexit : forall code u io0,
            final_world (interpreter_exit code u w' io0) = w').
  { intros code u io0. unfold interpreter_exit. cbv zeta.
    destruct (stdout_closed _); reflexivity. }
  assert (Herr : forall e io0, final_world (report_error e w' io0) = w').
  { intros e io0. unfold report_error.
    destruct (py_print _ io0) as [[e2|] io1]; apply Hexit. }
  destruct r as [out|e]; [|apply Herr].
  destruct (json_dumps_error _); [apply Herr|].
  destruct (py_print _ io) as [[e1|] io1]; [apply Herr | apply Hexit].
Qed.

(** X2: a run changes the world only by opening and writing the output
    file: either the final world is the initial one, or the input is an
    object with a truthy output_file whose opening succeeded in the initial
    world, and the final world is what writing the result text to it
    leaves. *)
Theorem world_changes_only_by_output (stdin : string) (w : world) :
  final_world (run stdin w) = w \/
  exists (d : dict) (n : Z) (w1 : world),
    let input_file := dict_get "input_file" (PyStr "data/default.txt") d in
    let output_file := dict_get "output_file" (PyStr "output/result.json") d in
    read_inputs stdin = Ok (PyDict d) /\
    count_of (os_path_exists input_file w) (read_text input_file w) = Some n /\
    truthy output_file = true /\
    open_w output_file w = Ok w1 /\
    final_world (run stdin w) = snd (write_close output_file (output_text n) w1).
Proof.
  unfold run. destruct (read_inputs stdin) as [inputs|e] eqn:Hin.
  2:{ left. unfold run_with. rewrite Hin.
      destruct (isinstance e "JSONDecodeError"); reflexivity. }
  rewrite (final_world_processing _ _ _ _ Hin).
  destruct (processing_inputs_cases inputs (w, initial_streams))
    as [[e He]|(d & -> & _ & _ & Hp)].
  { left. now rewrite He. }
  rewrite Hp. unfold count_and_write, py_read. cbv zeta. simpl fst.
  destruct (os_path_exists _ w) as [[|]|e] eqn:Hfound; [| |now left].
  - destruct (read_text _ w) as [data|e] eqn:Hdata; [|now left].
    destruct (write_and_return_world d (Z.of_nat (length (split_on newline data)))
                (w, close_descriptor (dict_get "input_file" (PyStr "data/default.txt") d) initial_streams))
      as [Hw|(w1 & Ht & Ho & Hw)]; [now left|].
    right. exists d, (Z.of_nat (length (split_on newline data))), w1.
    cbv zeta. rewrite Hfound, Hdata. auto.
  - destruct (write_and_return_world d 0 (w, initial_streams))
      as [Hw|(w1 & Ht & Ho & Hw)]; [now left|].
    right. exists d, 0, w1. cbv zeta. rewrite Hfound. auto.
Qed.

(** ** The count of the input file *)

(** X3: when the main logic returns, its processed_count is 0 if the
    input file does not exist, and otherwise one more than the number of
    newline characters in the text read from it, so at least 1 even for an
    empty file. *)
Theorem processed_count_counts_newlines (d : dict) (w w' : world)
  (io io' : streams) (out : dict) :
  main (PyDict d) (w, io) = (Ok out, (w', io')) ->
  let input_file := dict_get "input_file" (PyStr "data/default.txt") d in
  (os_path_exists input_file w = Ok false /\
   dict_lookup "processed_count" out = Some (PyInt 0)) \/
  (exists data,
     os_path_exists input_file w = Ok true /\
     read_text input_file w = Ok data /\
     dict_lookup "processed_count" out
       = Some (PyInt (Z.of_nat (count_char newline data) + 1))).
Proof.
  intros Hmain input_file.
  destruct (main_returns _ _ _ _ Hmain) as (d1 & n & [= <-] & _ & Hc & ->).
  simpl fst in Hc. fold input_file in Hc. unfold count_of in Hc.
  destruct (os_path_exists input_file w) as [[|]|e]; [| |discriminate].
  - destruct (read_text input_file w) as [data|e]; [|discriminate].
    right. exists data. repeat split. injection Hc as <-.
    rewrite length_split_on. simpl. do 2 f_equal. lia.
  - left. split; [reflexivity|]. now injection Hc as <-.
Qed.

(** ** When a run succeeds *)

Lemma exit_code_cases (m : py_value -> M dict) (stdin : string) (w : world) :
  exit_code (run_with m stdin w) = 0 \/
  exit_code (run_with m stdin w) = 1 \/
  exit_code (run_with m stdin w) = 120.
Proof.
  destruct (read_inputs stdin) as [inputs|e] eqn:Hin.
  - destruct (processing m inputs (w, initial_streams)) as [r [w' io]] eqn:Hproc.
    destruct (stdout_closed io) eqn:Hc.
    + right; right. now destruct (run_with_closed _ _ _ _ _ _ _ Hin Hproc Hc).
    + destruct r as [out|e].
      * destruct (json_dumps_error (PyDict out)) as [e|] eqn:Henc.
        -- right; left.
           now rewrite (run_with_refused _ _ _ _ _ _ _ _ Hin Hproc Hc Henc).
        -- left.
           assert (Hout : forall o, Ok out = Ok o -> json_dumps_error (PyDict o) = None)
             by now intros o [= <-].
           now rewrite (run_with_open _ _ _ _ _ _ _ Hin Hproc Hc Hout).
      * right; left.
        now rewrite (run_with_open _ _ _ _ _ _ _ Hin Hproc Hc (no_result_to_encode e)).
  - right; left. unfold run_with. rewrite Hin.
    destruct (isinstance e "JSONDecodeError"); reflexivity.
Qed.

(** X4: the exit code is 0, 1 or 120, and a run that exits with 0 has an
    input object.  For an input object whose file arguments are no
    standard descriptors, the exit code is 0 exactly when the object passes
    validation and has the required parameter, looking at the input file
    raises nothing, and the output file is either not named (a falsy
    output_file) or opened and written without an error. *)
Theorem exit_zero_iff (stdin : string) (w : world) :
  (exit_code (run stdin w) = 0 \/ exit_code (run stdin w) = 1 \/
   exit_code (run stdin w) = 120) /\
  (exit_code (run stdin w) = 0 -> exists d, read_inputs stdin = Ok (PyDict d)) /\
  (forall d : dict,
     let input_file := dict_get "input_file" (PyStr "data/default.txt") d in
     let output_file := dict_get "output_file" (PyStr "output/result.json") d in
     read_inputs stdin = Ok (PyDict d) ->
     is_std input_file = false ->
     is_std output_file = false ->
     (exit_code (run stdin w) = 0 <->
      validate_inputs (PyDict d) = Ok tt /\
      dict_has "required_param" d = true /\
      exists n : Z,
        count_of (os_path_exists input_file w) (read_text input_file w) = Some n /\
        (truthy output_file = false \/
         exists w1 w2, open_w output_file w = Ok w1 /\
                       write_close output_file (output_text n) w1 = (None, w2)))).
Proof.
  split; [apply exit_code_cases|]. split.
  - unfold run. intros Hexit.
    destruct (read_inputs stdin) as [inputs|e] eqn:Hin.
    2:{ unfold run_with in Hexit. rewrite Hin in Hexit.
        destruct (isinstance e "JSONDecodeError"); discriminate. }
    destruct (processing main inputs (w, initial_streams)) as [r [w' io]] eqn:Hproc.
    destruct (stdout_closed io) eqn:Hc.
    { destruct (run_with_closed _ _ _ _ _ _ _ Hin Hproc Hc) as [H _].
      rewrite H in Hexit. discriminate. }
    rewrite (run_with_open _ _ _ _ _ _ _ Hin Hproc Hc (main_result_encodes _ _ _ _ Hproc)) in Hexit.
    destruct r as [out|e]; [|discriminate].
    destruct (validate_inputs_unit inputs) as [Hv|[e Hv]].
    2:{ rewrite (processing_rejected _ _ _ _ Hv) in Hproc. discriminate. }
    rewrite (processing_main _ _ Hv) in Hproc.
    destruct (main_returns _ _ _ _ Hproc) as (d & n & -> & _). now exists d.
  - intros d input_file output_file Hin Hsin Hsout. unfold run.
    assert (Hafter : after_input d (w, initial_streams) = (w, initial_streams)).
    { unfold after_input. cbv zeta. fold input_file. simpl fst.
      destruct (os_path_exists input_file w) as [[|]|e]; try reflexivity.
      simpl. now rewrite (close_descriptor_plain _ _ Hsin). }
    split.
    + intros Hexit.
      destruct (processing main (PyDict d) (w, initial_streams)) as [r [w' io]] eqn:Hproc.
      destruct (stdout_closed io) eqn:Hc.
      { destruct (run_with_closed _ _ _ _ _ _ _ Hin Hproc Hc) as [H _].
        rewrite H in Hexit. discriminate. }
      rewrite (run_with_open _ _ _ _ _ _ _ Hin Hproc Hc (main_result_encodes _ _ _ _ Hproc)) in Hexit.
      destruct r as [out|e]; [|discriminate].
      destruct (validate_inputs_unit (PyDict d)) as [Hv|[e Hv]].
      2:{ rewrite (processing_rejected _ _ _ _ Hv) in Hproc. discriminate. }
      rewrite (processing_main _ _ Hv) in Hproc.
      destruct (main_returns _ _ _ _ Hproc) as (d1 & n & [= <-] & Hreq & Hcount & ->).
      split; [exact Hv|]. split; [exact Hreq|]. exists n. split; [exact Hcount|].
      rewrite (main_eval d (w, initial_streams) n Hreq Hcount), Hafter,
        (write_and_return_plain _ _ _ _ Hsout) in Hproc.
      fold output_file in Hproc.
      destruct (truthy output_file); [|now left].
      right. destruct (open_w output_file w) as [w1|e]; [|discriminate].
      destruct (write_close output_file (output_text n) w1) as [[e|] w2] eqn:Hw;
        [discriminate|].
      exists w1, w2. split; [reflexivity | exact Hw].
    + intros (Hv & Hreq & n & Hcount & Hout).
      assert (Hproc : exists w', processing main (PyDict d) (w, initial_streams)
                                 = (Ok (main_output d n), (w', initial_streams))).
      { rewrite (processing_main _ _ Hv),
          (main_eval d (w, initial_streams) n Hreq Hcount), Hafter,
          (write_and_return_plain _ _ _ _ Hsout).
        fold output_file.
        destruct Hout as [->|(w1 & w2 & Ho & Hw)]; [now exists w|].
        rewrite Ho, Hw. destruct (truthy output_file); eauto. }
      destruct Hproc as [w' Hproc].
      now rewrite (run_with_open _ _ _ _ _ _ _ Hin Hproc eq_refl (main_result_encodes _ _ _ _ Hproc)).
Qed.

(** X5: in a run that exits with 0, the printed threshold_used is the
    threshold of the input object, or 10 when there is none, and it is a
    value that validation lets through: an int, float or bool that is not
    below zero. *)
Theorem successful_run_threshold (stdin : string) (w : world) :
  exit_code (run stdin w) = 0 ->
  exists (d out : dict),
    read_inputs stdin = Ok (PyDict d) /\
    stdout (run stdin w) = [json_dumps (PyDict out)] /\
    dict_lookup "threshold_used" out = Some (dict_get "threshold" (PyInt 10) d) /\
    acceptable_threshold (dict_get "threshold" (PyInt 10) d).
Proof.
  unfold run. intros Hexit.
  destruct (read_inputs stdin) as [inputs|e] eqn:Hin.
  2:{ unfold run_with in Hexit. rewrite Hin in Hexit.
      destruct (isinstance e "JSONDecodeError"); discriminate. }
  destruct (processing main inputs (w, initial_streams)) as [r [w' io]] eqn:Hproc.
  destruct (stdout_closed io) eqn:Hc.
  { destruct (run_with_closed _ _ _ _ _ _ _ Hin Hproc Hc) as [H _].
    rewrite H in Hexit. discriminate. }
  rewrite (run_with_open _ _ _ _ _ _ _ Hin Hproc Hc (main_result_encodes _ _ _ _ Hproc)) in *.
  destruct r as [out|e]; [|discriminate].
  destruct (validate_inputs_unit inputs) as [Hv|[e Hv]].
  2:{ rewrite (processing_rejected _ _ _ _ Hv) in Hproc. discriminate. }
  rewrite (processing_main _ _ Hv) in Hproc.
  destruct (main_returns _ _ _ _ Hproc) as (d & n & -> & Hreq & Hcount & ->).
  assert (Hsent : stdout_sent io = []).
  { (* a text reaches stdout only through descriptor 1, which closes it *)
    rewrite (main_eval d (w, initial_streams) n Hreq Hcount) in Hproc.
    destruct (names_stdout (dict_get "output_file" (PyStr "output/result.json") d)) eqn:Hout.
    - assert (Hstd : is_std (dict_get "output_file" (PyStr "output/result.json") d) = true) by (unfold is_std; now rewrite Hout).
      destruct (after_input d (w, initial_streams)) as [w0 io0].
      rewrite (write_and_return_std _ _ _ _ Hstd) in Hproc.
      destruct (descriptor_closed _ io0); [discriminate|].
      injection Hproc as _ <-.
      rewrite close_descriptor_stdout, Hout in Hc. discriminate.
    - destruct (write_and_return_stdout _ _ _ _ _ Hproc Hout) as [_ Hs].
      simpl in Hs. rewrite Hs.
      now destruct (after_input_sent d (w, initial_streams)) as [-> _]. }
  exists d, (main_output d n). rewrite Hsent. repeat split.
  - unfold dict_get.
    destruct (dict_lookup "threshold" d) as [t|] eqn:Ht.
    + exact (proj1 (proj1 (validated_threshold d) Hv t Ht)).
    + reflexivity.
  - unfold dict_get.
    destruct (dict_lookup "threshold" d) as [t|] eqn:Ht.
    + exact (proj2 (proj1 (validated_threshold d) Hv t Ht)).
    + simpl. lia.
Qed.

(** ** What validation accepts *)

(** X8: validation accepts an input object exactly when it has no
    threshold or its threshold is an int, float or bool that is not below
    zero.  A NaN and a positive infinity, which the decoder produces for the
    tokens NaN and Infinity, are accepted; a negative infinity is not. *)
Theorem validate_inputs_accepts (d : dict) :
  (validate_inputs (PyDict d) = Ok tt <->
   dict_lookup "threshold" d = None \/
   exists t, dict_lookup "threshold" d = Some t /\ acceptable_threshold t) /\
  acceptable_threshold (PyFloat S754_nan) /\
  acceptable_threshold (PyFloat (S754_infinity false)) /\
  ~ acceptable_threshold (PyFloat (S754_infinity true)).
Proof.
  split; [|split; [|split]].
  - rewrite validated_threshold. split.
    + intros H. destruct (dict_lookup "threshold" d) as [t|]; [|now left].
      right. exists t. split; [reflexivity | now apply H].
    + intros [Hn|(t & Ht & Hacc)] t' Ht'; congruence.
  - split; [reflexivity | discriminate].
  - split; [reflexivity | discriminate].
  - intros [_ H]. apply H. reflexivity.
Qed.

(** ** What the parameters influence *)

(** X6: only the presence of required_param matters: replacing its value
    by any other one, null included, changes nothing in what processing
    does to the state, returns or raises. *)
Theorem required_param_value_unused (d : dict) (v : py_value) (s : state) :
  dict_has "required_param" d = true ->
  processing main (PyDict (dict_set "required_param" v d)) s
  = processing main (PyDict d) s.
Proof.
  intros Hreq.
  assert (Hval : validate_inputs (PyDict (dict_set "required_param" v d))
                 = validate_inputs (PyDict d)).
  { rewrite !validate_inputs_dict, dict_lookup_set_ne by discriminate. reflexivity. }
  assert (Hmain : main (PyDict (dict_set "required_param" v d)) s
                  = main (PyDict d) s).
  { rewrite (main_dict _ _ Hreq), (main_dict _ _ (dict_has_set _ _ _)).
    unfold count_and_write, write_and_return, main_output. cbv zeta.
    rewrite !dict_get_set_ne by discriminate. reflexivity. }
  destruct (validate_inputs_unit (PyDict d)) as [Hv|[e Hv]].
  - rewrite !processing_validated by congruence. now rewrite Hmain.
  - rewrite !(processing_rejected _ _ e) by congruence. reflexivity.
Qed.

Lemma main_output_threshold (d : dict) (t : py_value) (n : Z) :
  main_output (dict_set "threshold" t d) n
  = dict_set "threshold_used" t (main_output d n).
Proof.
  unfold main_output. rewrite dict_get_set_ne by discriminate.
  unfold dict_get at 2. rewrite dict_lookup_set_eq. reflexivity.
Qed.

Lemma write_and_return_threshold (d : dict) (t : py_value) (n : Z) (s : state) :
  match write_and_return d n s,
        write_and_return (dict_set "threshold" t d) n s with
  | (Ok out, s1), (Ok out', s2) =>
      s1 = s2 /\ out' = dict_set "threshold_used" t out
  | (Raise e, s1), (Raise e', s2) => s1 = s2 /\ e = e'
  | _, _ => False
  end.
Proof.
  unfold write_and_return. cbv zeta.
  rewrite dict_get_set_ne by discriminate.
  destruct (truthy _); [|split; [reflexivity | apply main_output_threshold]].
  destruct (py_open_w _ s) as [[[]|e] s1]; [|split; reflexivity].
  destruct (py_write_close _ _ s1) as [[[]|e] s2];
    [split; [reflexivity | apply main_output_threshold] | split; reflexivity].
Qed.

(** X12: the threshold does not reach the files: giving the input object
    another threshold changes neither the final state nor whether the main
    logic returns or which exception it raises; in the returned dictionary
    only threshold_used differs. *)
Theorem threshold_does_not_reach_files (d : dict) (t : py_value) (s : state) :
  dict_has "required_param" d = true ->
  match main (PyDict d) s, main (PyDict (dict_set "threshold" t d)) s with
  | (Ok out, s1), (Ok out', s2) =>
      s1 = s2 /\ out' = dict_set "threshold_used" t out
  | (Raise e, s1), (Raise e', s2) => s1 = s2 /\ e = e'
  | _, _ => False
  end.
Proof.
  intros Hreq.
  assert (Hreq' : dict_has "required_param" (dict_set "threshold" t d) = true).
  { unfold dict_has. now rewrite dict_lookup_set_ne by discriminate. }
  rewrite (main_dict _ _ Hreq), (main_dict _ _ Hreq').
  unfold count_and_write. cbv zeta.
  rewrite dict_get_set_ne by discriminate.
  destruct (os_path_exists _ (fst s)) as [[|]|e]; [| |split; reflexivity].
  - destruct (py_read _ s) as [[data|e] s1]; [|split; reflexivity].
    apply write_and_return_threshold.
  - apply write_and_return_threshold.
Qed.

(** ** Runs that stop early, and runs without an output file *)

(** X10: when the input object passes validation but lacks
    required_param, the run prints the ValueError of the missing parameter
    and exits with 1 in every world: neither the input file nor the output
    file is looked at. *)
Theorem missing_required_param_reported (stdin : string) (d : dict) (w : world) :
  read_inputs stdin = Ok (PyDict d) ->
  validate_inputs (PyDict d) = Ok tt ->
  dict_has "required_param" d = false ->
  run stdin w =
  mk_outcome
    [json_dumps (PyDict [("success", PyBool false);
                         ("error", PyStr "Invalid value: Missing required parameter: required_param");
                         ("error_type", PyStr "ValueError")])]
    [] 1 w.
Proof.
  intros Hin Hv Hreq. unfold run.
  rewrite (run_early_failure _ _ _
             (ValueError "Missing required parameter: required_param") _ Hin);
    [reflexivity|].
  now rewrite (processing_main _ _ Hv), (main_missing_required _ _ Hreq).
Qed.

(** X11: when looking at an input file that is not descriptor 1 raises,
    be it in [os.path.exists] or in opening and reading a file that
    exists, the run reports that exception and exits with 1 without opening
    the output file: the world is left as it was. *)
Theorem input_file_failure_stops_before_output (stdin : string) (d : dict)
  (e : exn) (w : world) :
  let input_file := dict_get "input_file" (PyStr "data/default.txt") d in
  read_inputs stdin = Ok (PyDict d) ->
  validate_inputs (PyDict d) = Ok tt ->
  dict_has "required_param" d = true ->
  names_stdout input_file = false ->
  os_path_exists input_file w = Raise e \/
  (os_path_exists input_file w = Ok true /\ read_text input_file w = Raise e) ->
  run stdin w = mk_outcome [json_dumps (handler e)] [] 1 w.
Proof.
  intros input_file Hin Hv Hreq Hnin Hfail.
  assert (Hproc : exists io, processing main (PyDict d) (w, initial_streams)
                             = (Raise e, (w, io))).
  { rewrite (processing_main _ _ Hv), (main_dict _ _ Hreq).
    unfold count_and_write, py_read. cbv zeta. fold input_file. simpl fst.
    destruct Hfail as [->|[-> ->]]; eauto. }
  destruct Hproc as [io Hproc].
  destruct (processing_raise_streams _ _ _ _ _ Hproc) as (Hc & Hs & Hse).
  { now intros d0 [= <-]. }
  unfold run. now rewrite (run_with_open _ _ _ _ _ _ _ Hin Hproc Hc (main_result_encodes _ _ _ _ Hproc)), Hs, Hse.
Qed.

(** X9: with a falsy output_file (null, the empty string, 0, false, an
    empty array or object) nothing is written: a run that gets past an
    input file that is not descriptor 1 prints the result with exit code 0
    and leaves the world as it was. *)
Theorem falsy_output_file_writes_nothing (stdin : string) (d : dict) (n : Z)
  (w : world) :
  let input_file := dict_get "input_file" (PyStr "data/default.txt") d in
  read_inputs stdin = Ok (PyDict d) ->
  validate_inputs (PyDict d) = Ok tt ->
  dict_has "required_param" d = true ->
  names_stdout input_file = false ->
  count_of (os_path_exists input_file w) (read_text input_file w) = Some n ->
  truthy (dict_get "output_file" (PyStr "output/result.json") d) = false ->
  run stdin w = mk_outcome [json_dumps (PyDict (main_output d n))] [] 0 w.
Proof.
  intros input_file Hin Hv Hreq Hnin Hc Hfalsy.
  assert (Hproc : processing main (PyDict d) (w, initial_streams)
                  = (Ok (main_output d n), after_input d (w, initial_streams))).
  { rewrite (processing_main _ _ Hv), (main_eval d (w, initial_streams) n Hreq Hc).
    unfold write_and_return. cbv zeta. now rewrite Hfalsy. }
  destruct (after_input d (w, initial_streams)) as [w0 io0] eqn:Hafter.
  assert (Hw0 : w0 = w).
  { pose proof (after_input_world d (w, initial_streams)) as H.
    now rewrite Hafter in H. }
  subst w0.
  pose proof (after_input_stdout d (w, initial_streams) Hnin) as Hclosed.
  destruct (after_input_sent d (w, initial_streams)) as [Hs Hse].
  rewrite Hafter in Hclosed, Hs, Hse. simpl in Hclosed, Hs, Hse.
  unfold run. now rewrite (run_with_open _ _ _ _ _ _ _ Hin Hproc Hclosed (main_result_encodes _ _ _ _ Hproc)), Hs, Hse.
Qed.

(** ** File arguments that are the standard output *)


End ScriptFacts.
(** * Properties of the requirement registry *)

Module TraceabilityFacts.
Import Traceability.

Section Pass.
Variable wave_marks_partial : bool.

Lemma feature_status_rank (lvl : coverage_level) (st : status) :
  (rank st <= rank (feature_status lvl st))%nat.
Proof. destruct lvl, st; simpl; lia. Qed.

Lemma wave_status_rank (st : status) :
  (rank st <= rank (wave_status wave_marks_partial st))%nat.
Proof. unfold wave_status. destruct wave_marks_partial, st; simpl; lia. Qed.

Lemma apply_link_rank (ev : event) (r : requirement) :
  (rank (req_status r)
   <= rank (req_status (apply_link wave_marks_partial ev r)))%nat.
Proof.
  unfold apply_link. destruct (ev_kind ev); simpl.
  - apply feature_status_rank.
  - apply wave_status_rank.
Qed.

(** One step keeps every requirement in its place and does not lower its
    status. *)
Lemma step_status_at (ev : event) (registry : list requirement) (i : nat)
  (s : status) :
  status_at i registry = Some s ->
  exists s', status_at i (step wave_marks_partial ev registry) = Some s' /\
             (rank s <= rank s')%nat.
Proof.
  unfold status_at, step. rewrite list_lookup_fmap.
  destruct (registry !! i) as [r|]; simpl; [|discriminate].
  intros [= <-].
  destruct (String.eqb (req_id r) (ev_token ev)).
  - eexists. split; [reflexivity | apply apply_link_rank].
  - eexists. split; [reflexivity | lia].
Qed.

Lemma trace_head (evs : list event) (registry : list requirement) :
  trace wave_marks_partial evs registry !! 0%nat = Some registry.
Proof. destruct evs; reflexivity. Qed.

Lemma trace_tail (ev : event) (evs : list event) (registry : list requirement)
  (k : nat) :
  trace wave_marks_partial (ev :: evs) registry !! S k =
  trace wave_marks_partial evs (step wave_marks_partial ev registry) !! k.
Proof. reflexivity. Qed.

(** From the start of a pass on, the status does not go down. *)
Lemma trace_from_start (evs : list event) :
  forall (registry regk : list requirement) (i k : nat) (s sk : status),
    trace wave_marks_partial evs registry !! k = Some regk ->
    status_at i registry = Some s ->
    status_at i regk = Some sk ->
    (rank s <= rank sk)%nat.
Proof.
  induction evs as [|ev evs IH]; intros registry regk i k s sk Hk Hs Hsk.
  - destruct k as [|k]; [|discriminate].
    injection Hk as <-. rewrite Hs in Hsk. injection Hsk as <-. lia.
  - destruct k as [|k].
    + injection Hk as <-. rewrite Hs in Hsk. injection Hsk as <-. lia.
    + rewrite trace_tail in Hk.
      destruct (step_status_at ev _ _ _ Hs) as (s1 & Hs1 & Hle).
      specialize (IH _ _ _ _ _ _ Hk Hs1 Hsk). lia.
Qed.

Lemma trace_between (evs : list event) :
  forall (registry regj regk : list requirement) (i j k : nat) (sj sk : status),
    (j <= k)%nat ->
    trace wave_marks_partial evs registry !! j = Some regj ->
    trace wave_marks_partial evs registry !! k = Some regk ->
    status_at i regj = Some sj ->
    status_at i regk = Some sk ->
    (rank sj <= rank sk)%nat.
Proof.
  induction evs as [|ev evs IH]; intros registry regj regk i j k sj sk Hjk Hj Hk Hsj Hsk.
  - destruct j as [|j]; [|discriminate]. injection Hj as <-.
    eapply trace_from_start; eassumption.
  - destruct j as [|j].
    + injection Hj as <-. eapply trace_from_start; eassumption.
    + destruct k as [|k]; [lia|].
      rewrite trace_tail in Hj, Hk.
      eapply IH; [| exact Hj | exact Hk | exact Hsj | exact Hsk]. lia.
Qed.

Lemma rank_covered (s : status) : (rank covered <= rank s)%nat -> s = covered.
Proof. destruct s; simpl; (reflexivity || lia). Qed.

(** The registry that a pass builds is the last one of its trace. *)
Lemma trace_last (evs : list event) :
  forall registry : list requirement,
    trace wave_marks_partial evs registry !! length evs =
    Some (fold_left (fun reg ev => step wave_marks_partial ev reg) evs registry).
Proof.
  induction evs as [|ev evs IH]; intros registry; [reflexivity|].
  simpl length. rewrite trace_tail. apply IH.
Qed.

(** C7: during one registry-build pass the status of a requirement only
    moves forward along uncovered, partial, covered: between an earlier and
    a later registry of the pass its rank does not go down, a requirement
    that is covered stays covered whatever Feature or Wave links follow,
    and the registry that the pass builds is not below the initial one. *)
Theorem status_monotone (features waves : list artifact)
  (registry regj regk : list requirement) (i j k : nat) (sj sk : status) :
  (j <= k)%nat ->
  trace wave_marks_partial (pass_events features waves) registry !! j = Some regj ->
  trace wave_marks_partial (pass_events features waves) registry !! k = Some regk ->
  status_at i regj = Some sj ->
  status_at i regk = Some sk ->
  (rank sj <= rank sk)%nat /\
  (sj = covered -> sk = covered) /\
  (sj = partial -> sk <> uncovered) /\
  (forall s0 s1,
     status_at i registry = Some s0 ->
     status_at i (build wave_marks_partial features waves registry) = Some s1 ->
     (rank s0 <= rank s1)%nat).
Proof.
  intros Hjk Hj Hk Hsj Hsk.
  assert (Hle : (rank sj <= rank sk)%nat)
    by (eapply trace_between; [exact Hjk | exact Hj | exact Hk | exact Hsj | exact Hsk]).
  split; [exact Hle|]. split; [|split].
  - intros ->. now apply rank_covered.
  - intros -> ->. simpl in Hle. lia.
  - intros s0 s1 H0 H1. unfold build in H1.
    eapply trace_from_start; [apply trace_last | exact H0 | exact H1].
Qed.

End Pass.

End TraceabilityFacts.

(** * The script on the reference library and file system *)

Module Examples.
Import Reference.

#[local] Existing Instance lib.
#[local] Existing Instance flat.

Abbreviation run_flat := (@run lib flat).
Abbreviation run_with_flat := (@run_with lib flat).
Abbreviation run_sample := (@run Samples.lib flat).

(** The definitions on small inputs. *)
Example split_on_lines :
  split_on newline ("a" ++ String newline ("b" ++ String newline "")) = ["a"; "b"; ""]
  /\ split_on newline "" = [""].
Proof. split; reflexivity. Qed.

Example str_of_int_digits : str_of_int (-15) = "-15" /\ str_of_int 0 = "0".
Proof. split; reflexivity. Qed.

Example float_str_digits :
  float_str (S754_finite true 3 (-1)) = "-1.5" /\
  float_str (S754_finite false 1 (-4)) = "0.0625" /\
  float_str (S754_finite false 5 2) = "20.0".
Proof. repeat split; reflexivity. Qed.

Example truthy_values :
  truthy (PyStr "") = false /\ truthy (PyStr "out.json") = true /\
  truthy (PyInt 0) = false /\ truthy (PyFloat S754_nan) = true /\
  truthy PyNone = false.
Proof. repeat split; reflexivity. Qed.

Example isinstance_decode_error :
  isinstance undecodable "FileNotFoundError" = false /\
  isinstance undecodable "ValueError" = true /\
  isinstance disk_full "ValueError" = false /\
  isinstance disk_full "Exception" = true /\
  isinstance no_json "JSONDecodeError" = true /\
  isinstance too_deep "JSONDecodeError" = false.
Proof. repeat split; reflexivity. Qed.

Example descriptor_paths :
  names_stdout (PyBool true) = true /\ names_stdout (PyInt 1) = true /\
  names_stdout (PyStr "1") = false /\ names_stdout (PyBool false) = false /\
  names_stderr (PyInt 2) = true /\ is_std (PyInt 0) = false.
Proof. repeat split; reflexivity. Qed.

Example dict_set_examples :
  dict_set "success" (PyBool true) [("answer", PyInt 42)]
    = [("answer", PyInt 42); ("success", PyBool true)] /\
  dict_set "a" (PyInt 2) [("a", PyInt 1); ("b", PyNone)]
    = [("a", PyInt 2); ("b", PyNone)].
Proof. split; reflexivity. Qed.

Example reference_limits :
  @json_loads lib (brackets 2) = Raise (no_value_at 2) /\
  exn_str (no_value_at 2) = "Expecting value: line 1 column 3 (char 2)" /\
  @json_loads lib (brackets 996) = Raise too_deep /\
  dumps_error (deep_list 996) = None /\
  dumps_error (deep_list 997) = Some too_deep_to_encode /\
  flat_exists (PyInt 7) empty_dir = Ok false /\
  flat_open_w (PyInt 7) empty_dir = Raise bad_descriptor /\
  flat_open_w (PyInt (-1)) empty_dir = Raise (ValueError "negative file descriptor").
Proof. repeat split; vm_compute; reflexivity. Qed.

(** A JSON array on stdin: validation finds no threshold in the list, the
    main logic fails on [inputs.get], and the last clause reports the
    AttributeError. *)
Example run_on_array :
  @processing lib flat main (PyList [PyInt 1]) (empty_dir, initial_streams)
    = (Raise (AttributeError "'list' object has no attribute 'get'"),
       (empty_dir, initial_streams)) /\
  @handler (AttributeError "'list' object has no attribute 'get'")
    = error_output "'list' object has no attribute 'get'" "AttributeError".
Proof. split; reflexivity. Qed.

(** An output file that is descriptor 2: the result text reaches stderr,
    the result is printed and the exit code is 0. *)
Example run_on_stderr_descriptor :
  run_sample (Samples.document 13) empty_dir =
  mk_outcome (os := flat)
    [dumps 0 (PyDict [("success", PyBool true); ("processed_count", PyInt 0);
                      ("output_file", PyInt 2); ("threshold_used", PyInt 10)])]
    [Written (dumps 0 (PyDict [("processed", PyBool true); ("count", PyInt 0)]))]
    0 empty_dir.
Proof. reflexivity. Qed.

(** On a terminal the print to the closed standard output raises, first
    in the [try] and then in the clause that caught it. *)
Example run_on_terminal :
  @stderr terminal (@run Samples.lib terminal (Samples.document 11) empty_dir)
    = [Traceback [bad_descriptor; bad_descriptor]; FlushFailure] /\
  @exit_code terminal (@run Samples.lib terminal (Samples.document 11) empty_dir)
    = 120.
Proof. split; reflexivity. Qed.

(** ** The claims *)







(** C4 at a threshold of -1, and at a boolean threshold. *)
Lemma invalid_threshold_rejected_witness :
  (@validate_inputs lib (PyDict [("threshold", PyInt (-1))])
     = Raise (ValueError "threshold must be positive, got -1") /\
   run_flat (document 3) empty_dir =
   mk_outcome
     [dumps 0 (PyDict [("success", PyBool false);
                       ("error", PyStr "Invalid value: threshold must be positive, got -1");
                       ("error_type", PyStr "ValueError")])]
     [] 1 empty_dir) /\
  @validate_inputs lib (PyDict [("threshold", PyBool true)]) = Ok tt.
Proof.
  destruct (@invalid_threshold_rejected lib flat) as [H1 H2]. split.
  - apply (H1 main (document 3) [("threshold", PyInt (-1))] (PyInt (-1)) empty_dir).
    + reflexivity.
    + reflexivity.
    + right. reflexivity.
  - apply (H2 [("threshold", PyBool true)] true). reflexivity.
Defined.

(** The claim C4 fails at a boolean threshold: [true] is no JSON number,
    yet validation accepts it, the main logic runs and the exit code is
    0. *)
Lemma boolean_threshold_not_rejected :
  @read_inputs lib (document 4) = Ok (decoded 4) /\
  decoded 4 = PyDict [("threshold", PyBool true); ("required_param", PyInt 1);
                      ("output_file", PyStr "result.json")] /\
  is_json_number (PyBool true) = false /\
  @validate_inputs lib (decoded 4) = Ok tt /\
  exit_code (run_flat (document 4) empty_dir) = 0 /\
  final_world (run_flat (document 4) empty_dir) !! "result.json" = Some (written 0).
Proof. repeat split; reflexivity. Qed.

(** C10 at the thresholds 0, -0.0, a string and -1. *)
Lemma threshold_zero_accepted_witness :
  @validate_inputs lib (PyDict [("threshold", PyInt 0)]) = Ok tt /\
  @validate_inputs lib (PyDict [("threshold", PyFloat (S754_zero true))]) = Ok tt /\
  (exists t, dict_lookup "threshold" [("threshold", PyStr "high")] = Some t /\
             (is_json_number t = false \/ negative t)) /\
  @validate_inputs lib (PyDict [("threshold", PyInt (-1))])
    = Raise (ValueError "threshold must be positive, got -1").
Proof.
  destruct (@threshold_zero_accepted lib) as (H1 & H2 & H3).
  split; [|split; [|split]].
  - apply (H1 _ (PyInt 0)); [reflexivity | left; reflexivity].
  - apply (H1 _ (PyFloat (S754_zero true))); [reflexivity | right; eexists; reflexivity].
  - apply (H2 _ (ValueError "threshold must be a number, got str")). reflexivity.
  - apply (H3 _ (PyInt (-1))); reflexivity.
Defined.



(** C3 at a missing input file, and at an output file in a directory
    that does not exist. *)
Lemma missing_file_handling_witness :
  run_flat (document 2) empty_dir =
  mk_outcome
    [dumps 0 (PyDict [("success", PyBool true); ("processed_count", PyInt 0);
                      ("output_file", PyStr "result.json");
                      ("threshold_used", PyInt 10)])]
    [] 0 ({[ "result.json" := written 0 ]} : gmap string file) /\
  run_flat (document 6) empty_dir =
  mk_outcome
    [dumps 0 (PyDict [("success", PyBool false);
                      ("error", PyStr "File not found: [Errno 2] No such file or directory: 'output/result.json'");
                      ("error_type", PyStr "FileNotFoundError")])]
    [] 1 empty_dir /\
  final_world (run_flat (document 6) empty_dir) = empty_dir.
Proof.
  destruct (@missing_file_handling lib flat) as (HA & HB & HC).
  split; [|split].
  - apply (HA (document 2)
              [("required_param", PyInt 1); ("input_file", PyStr "missing.txt");
               ("output_file", PyStr "result.json")]
              empty_dir ({[ "result.json" := written 0 ]} : gmap string file));
      try reflexivity.
    right. split; [reflexivity|]. split; [reflexivity|].
    exists ({[ "result.json" := Text "" ]} : gmap string file).
    split; reflexivity.
  - apply (HB (document 6) default_inputs (no_such_file "output/result.json")
              empty_dir empty_dir initial_streams); reflexivity.
  - rewrite (HC (document 6) default_inputs 0 (no_such_file "output/result.json")
                empty_dir); reflexivity.
Defined.

(** The claim C3 fails at an input file that does not exist: the run
    succeeds with exit code 0, nothing reaches stderr, and the output file
    is written. *)
Lemma missing_input_file_is_skipped :
  @read_inputs lib (document 2) = Ok (decoded 2) /\
  decoded 2 = PyDict [("required_param", PyInt 1); ("input_file", PyStr "missing.txt");
                      ("output_file", PyStr "result.json")] /\
  @os_path_exists flat (PyStr "missing.txt") empty_dir = Ok false /\
  exit_code (run_flat (document 2) empty_dir) = 0 /\
  stderr (run_flat (document 2) empty_dir) = [] /\
  final_world (run_flat (document 2) empty_dir) !! "result.json" = Some (written 0).
Proof. repeat split; reflexivity. Qed.

(** C6 at two directories that agree on the input file. *)
Lemma main_deterministic_witness :
  @os_path_exists flat (PyStr "notes.txt") notes_dir = Ok true /\
  @os_path_exists flat (PyStr "notes.txt") (<["other.txt" := Text "x"]> notes_dir)
    = Ok true /\
  fst (@main lib flat (PyDict notes_inputs) (notes_dir, initial_streams)) =
  fst (@main lib flat (PyDict notes_inputs)
         (<["other.txt" := Text "x"]> notes_dir, initial_streams)).
Proof.
  split; [reflexivity|]. split; [reflexivity|].
  set (w2 := <["other.txt" := Text "x"]> notes_dir).
  assert (H1 : @main lib flat (PyDict notes_inputs) (notes_dir, initial_streams)
               = (Ok (main_output notes_inputs 2), (notes_dir, initial_streams)))
    by reflexivity.
  assert (H2 : @main lib flat (PyDict notes_inputs) (w2, initial_streams)
               = (Ok (main_output notes_inputs 2), (w2, initial_streams)))
    by reflexivity.
  assert (H : main_output notes_inputs 2 = main_output notes_inputs 2).
  { apply (@main_deterministic lib flat notes_inputs notes_dir w2 notes_dir w2
             initial_streams initial_streams initial_streams initial_streams _ _).
    - reflexivity.
    - intros _. reflexivity.
    - exact H1.
    - exact H2. }
  rewrite H1, H2. exact (f_equal Ok H).
Defined.

(** C7 at a pass over one Feature and one Wave document. *)
Lemma status_monotone_witness :
  (Traceability.rank Traceability.uncovered
   <= Traceability.rank Traceability.covered)%nat /\
  Traceability.status_at 0
    (Traceability.build true Traceability.sample_features
       Traceability.sample_waves Traceability.sample_registry)
  = Some Traceability.covered.
Proof.
  split; [|reflexivity].
  apply (TraceabilityFacts.status_monotone true
           Traceability.sample_features Traceability.sample_waves
           Traceability.sample_registry Traceability.sample_registry
           (Traceability.build true Traceability.sample_features
              Traceability.sample_waves Traceability.sample_registry)
           0 0 2 Traceability.uncovered Traceability.covered);
    (lia || reflexivity).
Defined.

End Examples.

(** * The further properties on the reference library and file system *)

Module MoreExamples.
Import Reference.

Abbreviation run_sample := (@run Samples.lib flat).

(** X1 at a JSON array on stdin. *)
Lemma non_object_input_rejected_witness :
  @read_inputs Samples.lib (Samples.document 7) = Ok (PyList [PyInt 1]) /\
  run_sample (Samples.document 7) empty_dir =
  mk_outcome (os := flat)
    [dumps 0 (PyDict [("success", PyBool false);
                      ("error", PyStr "'list' object has no attribute 'get'");
                      ("error_type", PyStr "AttributeError")])]
    [] 1 empty_dir.
Proof.
  split; [reflexivity|].
  destruct (@non_object_input_rejected Samples.lib flat (Samples.document 7)
              (PyList [PyInt 1]) empty_dir eq_refl)
    as (e & _ & Hp & Hrun); [discriminate|].
  assert (He : @processing Samples.lib flat (@main Samples.lib flat)
                  (PyList [PyInt 1]) (empty_dir, initial_streams)
               = (Raise (AttributeError "'list' object has no attribute 'get'"),
                  (empty_dir, initial_streams))) by reflexivity.
  pose proof (eq_trans (eq_sym (Hp initial_streams)) He) as Heq.
  injection Heq as ->. exact Hrun.
Defined.

(** X2 at a run that writes its output file. *)
Lemma world_changes_only_by_output_witness :
  final_world (run_sample (Samples.document 1) empty_dir) = empty_dir \/
  exists (d : dict) (n : Z) (w1 : gmap string file),
    @read_inputs Samples.lib (Samples.document 1) = Ok (PyDict d) /\
    count_of (flat_exists (dict_get "input_file" (PyStr "data/default.txt") d) empty_dir)
             (flat_read (dict_get "input_file" (PyStr "data/default.txt") d) empty_dir)
      = Some n /\
    truthy (dict_get "output_file" (PyStr "output/result.json") d) = true /\
    flat_open_w (dict_get "output_file" (PyStr "output/result.json") d) empty_dir
      = Ok w1 /\
    final_world (run_sample (Samples.document 1) empty_dir)
      = snd (flat_write (dict_get "output_file" (PyStr "output/result.json") d)
               (@output_text Samples.lib n) w1).
Proof.
  exact (@world_changes_only_by_output Samples.lib flat (Samples.document 1) empty_dir).
Defined.

(** X3 at an input file of two lines. *)
Lemma processed_count_counts_newlines_witness :
  @main lib flat (PyDict notes_inputs) (notes_dir, initial_streams)
    = (Ok (main_output notes_inputs 2), (notes_dir, initial_streams)) /\
  exists data,
    flat_exists (PyStr "notes.txt") notes_dir = Ok true /\
    flat_read (PyStr "notes.txt") notes_dir = Ok data /\
    dict_lookup "processed_count" (main_output notes_inputs 2)
      = Some (PyInt (Z.of_nat (count_char newline data) + 1)).
Proof.
  split; [reflexivity|].
  destruct (@processed_count_counts_newlines lib flat notes_inputs notes_dir notes_dir
              initial_streams initial_streams
              (main_output notes_inputs 2) eq_refl) as [[H _]|H].
  - discriminate H.
  - exact H.
Defined.

(** X4 at a run that succeeds. *)
Lemma exit_zero_iff_witness :
  exit_code (run_sample (Samples.document 1) empty_dir) = 0 /\
  exists d, @read_inputs Samples.lib (Samples.document 1) = Ok (PyDict d).
Proof.
  destruct (@exit_zero_iff Samples.lib flat (Samples.document 1) empty_dir)
    as (_ & Hobj & Hiff).
  assert (H0 : exit_code (run_sample (Samples.document 1) empty_dir) = 0).
  { apply (proj2 (Hiff [("required_param", PyInt 1);
                        ("output_file", PyStr "result.json")]
                       eq_refl eq_refl eq_refl)).
    split; [reflexivity|]. split; [reflexivity|].
    exists 0. split; [reflexivity|].
    right. exists ({[ "result.json" := Text "" ]} : gmap string file),
                  ({[ "result.json" := written 0 ]} : gmap string file).
    split; reflexivity. }
  split; [exact H0 | exact (Hobj H0)].
Defined.

(** X5 at a run with the threshold 3. *)
Lemma successful_run_threshold_witness :
  exists (d out : dict),
    @read_inputs Samples.lib (Samples.document 10) = Ok (PyDict d) /\
    stdout (run_sample (Samples.document 10) notes_dir) = [dumps 0 (PyDict out)] /\
    dict_lookup "threshold_used" out = Some (dict_get "threshold" (PyInt 10) d) /\
    acceptable_threshold (dict_get "threshold" (PyInt 10) d).
Proof.
  apply (@successful_run_threshold Samples.lib flat (Samples.document 10) notes_dir).
  reflexivity.
Defined.

(** X6 at a required_param of null. *)
Lemma required_param_value_unused_witness :
  @processing lib flat (@main lib flat)
    (PyDict [("required_param", PyNone); ("input_file", PyStr "notes.txt");
             ("output_file", PyNone)]) (notes_dir, initial_streams)
  = @processing lib flat (@main lib flat) (PyDict notes_inputs)
      (notes_dir, initial_streams).
Proof.
  apply (@required_param_value_unused lib flat notes_inputs PyNone
           (notes_dir, initial_streams)).
  reflexivity.
Defined.

(** X8 at a NaN threshold. *)
Lemma validate_inputs_accepts_witness :
  @validate_inputs lib (PyDict [("threshold", PyFloat S754_nan)]) = Ok tt.
Proof.
  destruct (@validate_inputs_accepts lib [("threshold", PyFloat S754_nan)])
    as (Hiff & Hnan & _).
  apply (proj2 Hiff). right. exists (PyFloat S754_nan). split; [reflexivity | exact Hnan].
Defined.

(** X9 at an output_file of null. *)
Lemma falsy_output_file_writes_nothing_witness :
  run_sample (Samples.document 9) notes_dir =
  mk_outcome (os := flat)
    [dumps 0 (PyDict [("success", PyBool true); ("processed_count", PyInt 2);
                      ("output_file", PyNone); ("threshold_used", PyInt 10)])]
    [] 0 notes_dir.
Proof.
  apply (@falsy_output_file_writes_nothing Samples.lib flat (Samples.document 9)
           [("required_param", PyNone); ("input_file", PyStr "notes.txt");
            ("output_file", PyNone)] 2 notes_dir);
    reflexivity.
Defined.

(** X10 at an input object with a threshold only. *)
Lemma missing_required_param_reported_witness :
  run_sample (Samples.document 8) notes_dir =
  mk_outcome (os := flat)
    [dumps 0 (PyDict [("success", PyBool false);
                      ("error", PyStr "Invalid value: Missing required parameter: required_param");
                      ("error_type", PyStr "ValueError")])]
    [] 1 notes_dir.
Proof.
  apply (@missing_required_param_reported Samples.lib flat (Samples.document 8)
           [("threshold", PyInt 5)] notes_dir);
    reflexivity.
Defined.

(** X11 at an input file that cannot be decoded. *)
Lemma input_file_failure_stops_before_output_witness :
  run_sample (Samples.document 5) binary_dir =
  mk_outcome (os := flat) [dumps 0 (@handler undecodable)] [] 1 binary_dir.
Proof.
  apply (@input_file_failure_stops_before_output Samples.lib flat (Samples.document 5)
           [("required_param", PyInt 1); ("input_file", PyStr "data.bin");
            ("output_file", PyStr "result.json")] undecodable binary_dir);
    try reflexivity.
  right. split; reflexivity.
Defined.

(** X12 at the thresholds 10 and 3. *)
Lemma threshold_does_not_reach_files_witness :
  match @main lib flat (PyDict notes_inputs) (notes_dir, initial_streams),
        @main lib flat (PyDict (dict_set "threshold" (PyInt 3) notes_inputs))
          (notes_dir, initial_streams)
  with
  | (Ok out, s1), (Ok out', s2) =>
      s1 = s2 /\ out' = dict_set "threshold_used" (PyInt 3) out
  | (Raise e, s1), (Raise e', s2) => s1 = s2 /\ e = e'
  | _, _ => False
  end.
Proof.
  apply (@threshold_does_not_reach_files lib flat notes_inputs (PyInt 3)
           (notes_dir, initial_streams)).
  reflexivity.
Defined.


End MoreExamples.
